(** * Verification of the data-quality checks of [spark_dq_framework.py]

    The class [SparkDQTesting] loads one table through a Spark session and
    runs six checks over it, each writing one entry of a report.  The Python
    code is embedded as functions in a state-and-exception monad (the state
    is the clock and the log of the queries sent to Spark); the Spark
    DataFrame is an interface of fallible queries, with an in-memory table
    as a reference provider of it. *)

From Stdlib Require Import ZArith List String Ascii Bool Lia.
From Stdlib Require Import SpecFloat DecimalString Sorted Permutation.
Import ListNotations.

Set Warnings "-register-all".
Local Open Scope string_scope.
Local Open Scope Z_scope.

(** ** Python values, exceptions and results *)

Inductive exn_class :=
| ValueError
| TypeError
| RuntimeError
| ZeroDivisionError
| OverflowError
| AnalysisException   (* raised by Spark when a query does not resolve *)
| Py4JJavaError       (* raised by Spark when a job fails *)
| PlainException.     (* [Exception] itself *)

(** An exception object; [str(e)] is [exn_msg e]. *)
Record exn := Exn { exn_cls : exn_class; exn_msg : string }.

Definition res (A : Type) : Type := (exn + A)%type.

Definition raise {A} (c : exn_class) (msg : string) : res A := inl (Exn c msg).

Definition res_bind {A B} (r : res A) (k : A -> res B) : res B :=
  match r with
  | inl e => inl e
  | inr a => k a
  end.

(** Binary64 numbers, by their specification in the Standard Library. *)
Definition float := spec_float.
Definition prec : Z := 53.
Definition emax : Z := 1024.

Inductive pyval :=
| VNone
| VBool (b : bool)
| VInt (z : Z)
| VFloat (f : float)
| VStr (s : string).

(** What a method receives for a parameter annotated [str] or [List[str]]:
    Python does not enforce the annotation. *)
Inductive pyarg :=
| AVal (v : pyval)
| AList (l : list pyval).

(** JSON-like payloads (the [details] of a result).  [JFloatStr f] is the
    string [str(f)] of a float [f], kept by its value. *)
Inductive jval :=
| JNone
| JBool (b : bool)
| JInt (z : Z)
| JStr (s : string)
| JFloatStr (f : float)
| JList (l : list jval)
| JDict (d : list (string * jval)).

(** ** Arithmetic of Python numbers *)

Definition float_of_Z (z : Z) : float := binary_normalize prec emax z 0 false.
Arguments float_of_Z : simpl never.

Definition is_infinite (f : float) : bool :=
  match f with S754_infinity _ => true | _ => false end.

Definition is_zero (f : float) : bool :=
  match f with S754_zero _ => true | _ => false end.

(** [float(z)] for an int [z]. *)
Definition int_to_float (z : Z) : res float :=
  let f := float_of_Z z in
  if is_infinite f then raise OverflowError "int too large to convert to float"
  else inr f.

(** [a / b] for two ints: the quotient rounded once. *)
Definition int_truediv (a b : Z) : res float :=
  match a, b with
  | _, Z0 => raise ZeroDivisionError "division by zero"
  | Z0, _ => inr (S754_zero (b <? 0))
  | _, _ =>
      let q := SFdiv prec emax
                 (S754_finite (a <? 0) (Z.to_pos (Z.abs a)) 0)
                 (S754_finite (b <? 0) (Z.to_pos (Z.abs b)) 0) in
      if is_infinite q
      then raise OverflowError "integer division result too large for a float"
      else inr q
  end.

(** [x / y] for two floats. *)
Definition float_truediv (x y : float) : res float :=
  if is_zero y then raise ZeroDivisionError "float division by zero"
  else inr (SFdiv prec emax x y).

Definition float_mul (x y : float) : float := SFmul prec emax x y.
Definition float_lt (x y : float) : bool := SFltb x y.

(** [int(f)]: truncation towards zero. *)
Definition float_to_int (f : float) : res Z :=
  match f with
  | S754_zero _ => inr 0
  | S754_nan => raise ValueError "cannot convert float NaN to integer"
  | S754_infinity _ => raise OverflowError "cannot convert float infinity to integer"
  | S754_finite s m e =>
      let a := Z.shiftl (Zpos m) e in
      inr (if s then - a else a)
  end.

(** [0.4], the nearest binary64 number to 2/5. *)
Definition float_0_4 : float := S754_finite false 7205759403792794 (-54).

(** ** Strings *)

Definition str_of_int (z : Z) : string := NilZero.string_of_int (Z.to_int z).

Fixpoint join (sep : string) (l : list string) : string :=
  match l with
  | [] => ""
  | [s] => s
  | s :: r => s ++ sep ++ join sep r
  end.

(** [str(v)]; the string of a float is kept as [JFloatStr]. *)
Definition py_str (v : pyval) : jval :=
  match v with
  | VNone => JStr "None"
  | VBool true => JStr "True"
  | VBool false => JStr "False"
  | VInt z => JStr (str_of_int z)
  | VFloat f => JFloatStr f
  | VStr s => JStr s
  end.

(** ** [float(s)] for a string

    Python strips white space, allows single underscores between digits, and
    reads an optional sign followed by [inf], [infinity], [nan] (in any
    case) or by a decimal number with an optional exponent.  The strings
    here are ASCII. *)

Definition is_space (c : ascii) : bool :=
  let n := N_of_ascii c in
  (((9 <=? n) && (n <=? 13)) || ((28 <=? n) && (n <=? 32)))%N.

Definition is_digit (c : ascii) : bool :=
  let n := N_of_ascii c in ((48 <=? n) && (n <=? 57))%N.

Definition digit_val (c : ascii) : Z := Z.of_N (N_of_ascii c) - 48.

Definition lower (c : ascii) : ascii :=
  let n := N_of_ascii c in
  if ((65 <=? n) && (n <=? 90))%N then ascii_of_N (n + 32) else c.

Fixpoint lstrip (l : list ascii) : list ascii :=
  match l with
  | c :: r => if is_space c then lstrip r else l
  | [] => []
  end.

Definition strip (l : list ascii) : list ascii := rev (lstrip (rev (lstrip l))).

(** Underscores are dropped when each stands between two digits. *)
Fixpoint drop_underscores (prev : option ascii) (l : list ascii) : option (list ascii) :=
  let prev_digit := match prev with Some p => is_digit p | None => false end in
  let prev_under := match prev with Some p => Ascii.eqb p "_" | None => false end in
  match l with
  | [] => if prev_under then None else Some []
  | c :: r =>
      if Ascii.eqb c "_" then
        if prev_digit then drop_underscores (Some c) r else None
      else if prev_under && negb (is_digit c) then None
      else option_map (cons c) (drop_underscores (Some c) r)
  end.

(** The leading digits of [l], added to [acc]: value, number of digits, rest. *)
Fixpoint take_digits (l : list ascii) (acc : Z) (n : Z) : Z * Z * list ascii :=
  match l with
  | c :: r => if is_digit c then take_digits r (10 * acc + digit_val c) (n + 1)
              else (acc, n, l)
  | [] => (acc, n, [])
  end.

Definition take_sign (l : list ascii) : bool * list ascii :=
  match l with
  | "-"%char :: r => (true, r)
  | "+"%char :: r => (false, r)
  | _ => (false, l)
  end.

(** The binary64 number nearest to [m * 10^e], for [m >= 0]. *)
Definition decimal_to_float (s : bool) (m e : Z) : float :=
  match m with
  | Zpos p =>
      if 0 <=? e then
        binary_normalize prec emax (if s then - (m * 10 ^ e) else m * 10 ^ e) 0 false
      else
        SFdiv prec emax (S754_finite s p 0)
          (S754_finite false (Z.to_pos (10 ^ (- e))) 0)
  | _ => S754_zero s
  end.

Definition parse_number (s : bool) (l : list ascii) : option float :=
  let '(ip, ni, l2) := take_digits l 0 0 in
  let '(mant, nf, l3) :=
    match l2 with
    | "."%char :: r => take_digits r ip 0
    | _ => (ip, 0, l2)
    end in
  if ni + nf =? 0 then None
  else
    match l3 with
    | [] => Some (decimal_to_float s mant (- nf))
    | c :: r =>
        if Ascii.eqb (lower c) "e" then
          let '(es, r1) := take_sign r in
          let '(ev, ne, r2) := take_digits r1 0 0 in
          match ne, r2 with
          | Z0, _ => None
          | _, [] => Some (decimal_to_float s mant ((if es then - ev else ev) - nf))
          | _, _ => None
          end
        else None
    end.

Definition float_of_string (s : string) : option float :=
  match drop_underscores None (strip (list_ascii_of_string s)) with
  | None => None
  | Some l =>
      let '(sg, body) := take_sign l in
      let word := string_of_list_ascii (map lower body) in
      if String.eqb word "inf" || String.eqb word "infinity" then Some (S754_infinity sg)
      else if String.eqb word "nan" then Some S754_nan
      else parse_number sg body
  end.

(** [float(v)]. *)
Definition py_float (v : pyval) : res float :=
  match v with
  | VNone =>
      raise TypeError "float() argument must be a string or a real number, not 'NoneType'"
  | VBool b => inr (float_of_Z (if b then 1 else 0))
  | VInt z => int_to_float z
  | VFloat f => inr f
  | VStr s =>
      match float_of_string s with
      | Some f => inr f
      | None => raise ValueError ("could not convert string to float: '" ++ s ++ "'")
      end
  end.

(** ** Dictionaries

    A Python [dict] keeps its keys in insertion order; assigning to a key
    that is present replaces the value in place. *)

Definition dict (V : Type) : Type := list (string * V).

Fixpoint dict_set {V} (k : string) (v : V) (d : dict V) : dict V :=
  match d with
  | [] => [(k, v)]
  | (k', v') :: r =>
      if String.eqb k k' then (k', v) :: r else (k', v') :: dict_set k v r
  end.

Fixpoint dict_get {V} (k : string) (d : dict V) : option V :=
  match d with
  | [] => None
  | (k', v') :: r => if String.eqb k k' then Some v' else dict_get k r
  end.

Definition dict_keys {V} (d : dict V) : list string := map fst d.
Definition dict_values {V} (d : dict V) : list V := map snd d.

Definition mem (c : string) (l : list string) : bool := existsb (String.eqb c) l.

(** [list(set(a) - set(b))].  Python leaves the order of a set unspecified;
    the order of [a] is taken here. *)
Definition set_difference (a b : list string) : list string :=
  filter (fun c => negb (mem c b)) (nodup string_dec a).

Definition sum (l : list Z) : Z := fold_right Z.add 0 l.

(** ** Spark

    Every call that sends work to Spark is an operation that returns a
    value or raises.  The names follow the chains of calls in the source. *)

(** The row of [select(F.max(c), F.min(c), F.avg(c)).first()]. *)
Record StatsRow := { r_max : pyval; r_min : pyval; r_avg : pyval }.

(** The row of
    [agg(F.max('count'), F.min('count'), F.avg('count'), F.count('count')).first()]. *)
Record CountsRow :=
  { max_count : pyval; min_count : pyval; avg_count : pyval; distinct_values : pyval }.

(** [df.groupBy(c).count()]: one row (value of [c], count) per distinct value. *)
Record GroupedCounts := {
  agg_first : res CountsRow;
  (* [.where(F.col('count') == n).first()]: the value of [c] in that row *)
  where_count_first : pyval -> res (option pyval);
  (* [.orderBy(F.col(c).desc()).collect()] *)
  orderBy_desc_collect : res (list (pyval * Z))
}.

Record DataFrame := {
  columns : list string;
  count : res Z;
  (* [.groupBy(keys).count().where('count > 1').count()] *)
  groupBy_where_gt1_count : list string -> res Z;
  (* [.where(F.col(c).isNull()).count()] *)
  where_isNull_count : string -> res Z;
  select_stats_first : string -> res StatsRow;
  groupBy_count : string -> res GroupedCounts
}.

(** The global [spark] session. *)
Record SparkSession := { sql : string -> res DataFrame }.

Inductive query :=
| QSql (q : string)
| QCount
| QDuplicates (keys : list string)
| QNullCount (c : string)
| QStats (c : string)
| QGroupBy (c : string)
| QAgg (c : string)
| QWhereCount (c : string) (n : pyval)
| QOrdered (c : string).

(** ** The monad of the methods: state and exceptions *)

Record World := {
  clock : nat -> string;    (* successive readings of [datetime.now().isoformat()] *)
  ticks : nat;              (* readings taken so far *)
  issued : list query       (* queries sent to Spark, oldest first *)
}.

Definition M (A : Type) : Type := World -> res A * World.

Definition ret {A} (a : A) : M A := fun w => (inr a, w).

Definition bind {A B} (m : M A) (k : A -> M B) : M B :=
  fun w => match m w with
           | (inl e, w') => (inl e, w')
           | (inr a, w') => k a w'
           end.

Notation "x <- m ;; k" := (bind m (fun x => k))
  (at level 61, m at next level, right associativity).
Notation "' p <- m ;; k" := (bind m (fun p => k))
  (at level 61, p pattern, m at next level, right associativity).

Definition lift {A} (r : res A) : M A := fun w => (r, w).

Definition raiseM {A} (c : exn_class) (msg : string) : M A := lift (raise c msg).

(** [try: body except Exception as e: handler e] *)
Definition try_except {A} (body : M A) (handler : exn -> M A) : M A :=
  fun w => match body w with
           | (inl e, w') => handler e w'
           | (inr a, w') => (inr a, w')
           end.

(** [try: body except (ValueError, TypeError): handler] *)
Definition try_except_value_type {A} (body : M A) (handler : M A) : M A :=
  try_except body
    (fun e => match exn_cls e with
              | ValueError | TypeError => handler
              | _ => lift (inl e)
              end).

(** A call to Spark, entered in the log. *)
Definition ask {A} (q : query) (r : res A) : M A :=
  fun w => (r, {| clock := clock w; ticks := ticks w;
                  issued := (issued w ++ [q])%list |}).

Definition datetime_now_isoformat : M string :=
  fun w => (inr (clock w (ticks w)),
            {| clock := clock w; ticks := S (ticks w); issued := issued w |}).

(** ** The class [SparkDQTesting] *)

Record TestResult := { status : string; timestamp : string; details : jval }.

(** A value of the [partition] dictionary: a string or a list of strings. *)
Inductive partition_value :=
| POne (v : string)
| PMany (l : list string).

(** The attributes set by [__init__] before the table is loaded. *)
Record Attributes := {
  table_schema : string;
  table_name : string;
  key_columns : list string;
  lud_column : option string;
  partition : option (dict partition_value);
  testing_results : dict TestResult
}.

(** The object once [_load_table_data] has run. *)
Record SparkDQTesting := {
  attrs :> Attributes;
  table_df : DataFrame;
  table_columns : list string;
  table_count : Z
}.

(** [self.testing_results[name] = r] *)
Definition set_result (self : SparkDQTesting) (name : string) (r : TestResult)
  : SparkDQTesting :=
  {| attrs := {| table_schema := table_schema self;
                 table_name := table_name self;
                 key_columns := key_columns self;
                 lud_column := lud_column self;
                 partition := partition self;
                 testing_results := dict_set name r (testing_results self) |};
     table_df := table_df self;
     table_columns := table_columns self;
     table_count := table_count self |}.

(** *** Validation of the configuration *)

Definition isinstance_str (a : pyarg) : bool :=
  match a with AVal (VStr _) => true | _ => false end.

Definition is_str (v : pyval) : bool :=
  match v with VStr _ => true | _ => false end.

Definition _validate_inputs (table_schema table_name key_columns : pyarg) : res unit :=
  if negb (forallb isinstance_str [table_schema; table_name]) then
    raise ValueError "table_schema and table_name must be strings"
  else if match key_columns with
          | AList l => negb (forallb is_str l)
          | AVal _ => true
          end then
    raise ValueError "key_columns must be a list of strings"
  else inr tt.

(** The arguments as the values that validation found them to be. *)
Definition as_str (a : pyarg) : string :=
  match a with AVal (VStr s) => s | _ => "" end.

Definition as_str_list (a : pyarg) : list string :=
  match a with
  | AList l => map (fun v => match v with VStr s => s | _ => "" end) l
  | AVal _ => []
  end.

(** *** Loading the table *)

Definition _build_query (self : Attributes) : string :=
  let query := "SELECT * FROM " ++ table_schema self ++ "." ++ table_name self in
  match partition self with
  | Some ((key, value) :: _) =>
      match value with
      | PMany l => query ++ " WHERE " ++ key ++ " in (" ++ join "," l ++ ")"
      | POne v => query ++ " WHERE " ++ key ++ " in (" ++ v ++ ")"
      end
  | _ => query
  end.

Definition _load_table_data (spark : SparkSession) (self : Attributes)
  : M SparkDQTesting :=
  try_except
    (let query := _build_query self in
     df <- ask (QSql query) (sql spark query) ;;
     n <- ask QCount (count df) ;;
     if n =? 0 then raiseM ValueError "Table contains no data"
     else ret {| attrs := self; table_df := df;
                 table_columns := columns df; table_count := n |})
    (fun e => raiseM RuntimeError ("Failed to query table: " ++ exn_msg e)).

(** The arguments of the constructor. *)
Record Config := {
  cfg_table_schema : pyarg;
  cfg_table_name : pyarg;
  cfg_key_columns : pyarg;
  cfg_lud_column : option string;
  cfg_partition : option (dict partition_value)
}.

Definition __init__ (spark : SparkSession) (cfg : Config) : M SparkDQTesting :=
  _ <- lift (_validate_inputs (cfg_table_schema cfg) (cfg_table_name cfg)
               (cfg_key_columns cfg)) ;;
  _load_table_data spark
    {| table_schema := as_str (cfg_table_schema cfg);
       table_name := as_str (cfg_table_name cfg);
       key_columns := as_str_list (cfg_key_columns cfg);
       lud_column := cfg_lud_column cfg;
       partition := cfg_partition cfg;
       testing_results := [] |}.

(** *** The checks *)

Definition _create_test_result (status : string) (details : jval) : M TestResult :=
  ts <- datetime_now_isoformat ;;
  ret {| status := status; timestamp := ts; details := details |}.

Definition find_duplicates (self : SparkDQTesting) : M SparkDQTesting :=
  try_except
    (duplicate_count <- ask (QDuplicates (key_columns self))
                          (groupBy_where_gt1_count (table_df self) (key_columns self)) ;;
     r <- _create_test_result
            (if duplicate_count =? 0 then "Passed" else "Failed")
            (JDict [("duplicated_rows_count", JInt duplicate_count)]) ;;
     ret (set_result self "find_duplicates" r))
    (fun e =>
       r <- _create_test_result "Error" (JStr (exn_msg e)) ;;
       ret (set_result self "find_duplicates" r)).

(** [{column: df.where(col(column).isNull()).count() for column in columns}] *)
Fixpoint null_counts (df : DataFrame) (columns : list string) (acc : dict Z)
  : M (dict Z) :=
  match columns with
  | [] => ret acc
  | column :: rest =>
      n <- ask (QNullCount column) (where_isNull_count df column) ;;
      null_counts df rest (dict_set column n acc)
  end.

Definition jint_dict (d : dict Z) : jval :=
  JDict (map (fun kv => (fst kv, JInt (snd kv))) d).

Definition find_nulls (self : SparkDQTesting) : M SparkDQTesting :=
  try_except
    (null_details <- null_counts (table_df self) (key_columns self) [] ;;
     let nulls_sum := sum (dict_values null_details) in
     r <- _create_test_result
            (if nulls_sum =? 0 then "Passed" else "Failed")
            (JDict [("total_null_count", JInt nulls_sum);
                    ("nulls_by_column", jint_dict null_details)]) ;;
     ret (set_result self "find_nulls" r))
    (fun e =>
       r <- _create_test_result "Error" (JStr (exn_msg e)) ;;
       ret (set_result self "find_nulls" r)).

(** [(count / self.table_count) * 100] *)
Definition null_percentage (null_count table_count : Z) : res float :=
  res_bind (int_truediv null_count table_count)
           (fun q => inr (float_mul q (float_of_Z 100))).

(** The loop of [check_completeness] over the non-key columns. *)
Fixpoint completeness_loop (table_df : DataFrame) (table_count : Z)
    (columns : list string) (null_details : dict jval) (status : string)
  : M (dict jval * string) :=
  match columns with
  | [] => ret (null_details, status)
  | column :: rest =>
      n <- ask (QNullCount column) (where_isNull_count table_df column) ;;
      p <- lift (null_percentage n table_count) ;;
      i <- lift (float_to_int p) ;;
      completeness_loop table_df table_count rest
        (dict_set column (JStr (str_of_int i ++ "%")) null_details)
        (if float_lt (float_of_Z 5) p then "Failed" else status)
  end.

Definition check_completeness (self : SparkDQTesting) : M SparkDQTesting :=
  try_except
    (let non_key_columns := set_difference (table_columns self) (key_columns self) in
     match non_key_columns with
     | [] =>
         r <- _create_test_result "Skipped" (JStr "Every column is a key column") ;;
         ret (set_result self "check_completeness" r)
     | _ =>
         '(null_details, status) <- completeness_loop (table_df self) (table_count self)
                                     non_key_columns [] "Passed" ;;
         r <- _create_test_result status
                (JDict [("nulls_percentage_by_column", JDict null_details)]) ;;
         ret (set_result self "check_completeness" r)
     end)
    (fun e =>
       r <- _create_test_result "Error" (JStr (exn_msg e)) ;;
       ret (set_result self "check_completeness" r)).

(** The loop of [values_range]: the inner [try] skips the column when the
    query or [float(stats['max'])] raises a [ValueError] or a [TypeError]. *)
Fixpoint values_range_loop (df : DataFrame) (columns : list string)
    (range_details : dict jval) : M (dict jval) :=
  match columns with
  | [] => ret range_details
  | column :: rest =>
      range_details' <-
        try_except_value_type
          (stats <- ask (QStats column) (select_stats_first df column) ;;
           _ <- lift (py_float (r_max stats)) ;;
           ret (dict_set column
                  (JDict [("max", py_str (r_max stats));
                          ("min", py_str (r_min stats));
                          ("avg", py_str (r_avg stats))])
                  range_details))
          (ret range_details) ;;
      values_range_loop df rest range_details'
  end.

Definition values_range (self : SparkDQTesting) : M SparkDQTesting :=
  try_except
    (let non_key_columns := set_difference (table_columns self) (key_columns self) in
     range_details <- values_range_loop (table_df self) non_key_columns [] ;;
     r <- _create_test_result "Passed"
            (JDict [("values_range_details", JDict range_details)]) ;;
     ret (set_result self "values_range" r))
    (fun e =>
       r <- _create_test_result "Error" (JStr (exn_msg e)) ;;
       ret (set_result self "values_range" r)).

(** [str(row[column]) if row else None] *)
Definition str_or_None (row : option pyval) : jval :=
  match row with
  | Some v => py_str v
  | None => JNone
  end.

(** The loop of [key_density] over the key columns. *)
Fixpoint key_density_loop (df : DataFrame) (columns : list string)
    (key_density : dict jval) : M (dict jval) :=
  match columns with
  | [] => ret key_density
  | column :: rest =>
      value_counts <- ask (QGroupBy column) (groupBy_count df column) ;;
      stats <- ask (QAgg column) (agg_first value_counts) ;;
      max_value <- ask (QWhereCount column (max_count stats))
                     (where_count_first value_counts (max_count stats)) ;;
      min_value <- ask (QWhereCount column (min_count stats))
                     (where_count_first value_counts (min_count stats)) ;;
      total <- ask QCount (count df) ;;
      key_density_loop df rest
        (dict_set column
           (JDict [("max_count", JDict [("value", str_or_None max_value);
                                        ("count", py_str (max_count stats))]);
                   ("min_count", JDict [("value", str_or_None min_value);
                                        ("count", py_str (min_count stats))]);
                   ("avg_count", py_str (avg_count stats));
                   ("distinct_values", py_str (distinct_values stats));
                   ("total_records", JStr (str_of_int total))])
           key_density)
  end.

Definition key_density (self : SparkDQTesting) : M SparkDQTesting :=
  try_except
    (key_density <- key_density_loop (table_df self) (key_columns self) [] ;;
     r <- _create_test_result "Passed"
            (JDict [("key_density_details", JDict key_density)]) ;;
     ret (set_result self "key_density" r))
    (fun e =>
       r <- _create_test_result "Error" (JStr (exn_msg e)) ;;
       ret (set_result self "key_density" r)).

(** [l[1:7]] *)
Definition slice_1_7 {A} (l : list A) : list A := firstn 6 (skipn 1 l).

(** [current_count / last_luds_avg if last_luds_avg > 0 else 0] *)
Definition ratio_to_average (current_count : Z) (last_luds_avg : float) : res pyval :=
  if float_lt (float_of_Z 0) last_luds_avg then
    res_bind (int_to_float current_count)
      (fun c => res_bind (float_truediv c last_luds_avg) (fun q => inr (VFloat q)))
  else inr (VInt 0).

(** [ratio < 0.4], for the float or the int 0 that [ratio] is. *)
Definition lt_0_4 (ratio : pyval) : bool :=
  match ratio with
  | VFloat q => float_lt q float_0_4
  | VInt z => float_lt (float_of_Z z) float_0_4
  | _ => false
  end.

(** The [moving_average] entry of the details of [lud_density]. *)
Definition moving_average (ordered_counts : list (pyval * Z)) : res jval :=
  if 7 <=? Z.of_nat (List.length ordered_counts) then
    let last_luds := map snd (slice_1_7 ordered_counts) in
    res_bind (int_truediv (sum last_luds) (Z.of_nat (List.length last_luds)))
      (fun last_luds_avg =>
         let current_count := snd (hd (VNone, 0) ordered_counts) in
         res_bind (ratio_to_average current_count last_luds_avg)
           (fun ratio =>
              let below_acceptable := lt_0_4 ratio in
              inr (JDict
                     [("last_luds_avg", JFloatStr last_luds_avg);
                      ("current_count", JStr (str_of_int current_count));
                      ("ratio_to_average", py_str ratio);
                      ("below_acceptable_average", JBool below_acceptable);
                      ("dates_analyzed",
                        JDict [("current_date",
                                 py_str (fst (hd (VNone, 0) ordered_counts)));
                               ("analyzed_dates",
                                 JList (map (fun row => py_str (fst row))
                                          (slice_1_7 ordered_counts)))])])))
  else inr (JDict [("error", JStr "Insufficient data for moving average calculation")]).

(** [d.get(k, default)] on a payload that is a dictionary. *)
Definition jget (k : string) (default : jval) (j : jval) : jval :=
  match j with
  | JDict d => match dict_get k d with Some v => v | None => default end
  | _ => default
  end.

Definition truthy (j : jval) : bool :=
  match j with
  | JNone | JBool false | JInt 0 | JStr "" | JList [] | JDict [] => false
  | _ => true
  end.

(** Truth of an optional string: [None] and [''] are false. *)
Definition configured (c : option string) : bool :=
  match c with
  | None | Some "" => false
  | Some _ => true
  end.

Definition lud_density (self : SparkDQTesting) : M SparkDQTesting :=
  if negb (configured (lud_column self)) then ret self
  else
    let lud := match lud_column self with Some c => c | None => "" end in
    try_except
      (value_counts <- ask (QGroupBy lud) (groupBy_count (table_df self) lud) ;;
       stats <- ask (QAgg lud) (agg_first value_counts) ;;
       max_value <- ask (QWhereCount lud (max_count stats))
                      (where_count_first value_counts (max_count stats)) ;;
       min_value <- ask (QWhereCount lud (min_count stats))
                      (where_count_first value_counts (min_count stats)) ;;
       avg <- lift (py_float (avg_count stats)) ;;
       let lud_density_details :=
         [("max_count", JDict [("value", str_or_None max_value);
                               ("count", py_str (max_count stats))]);
          ("min_count", JDict [("value", str_or_None min_value);
                               ("count", py_str (min_count stats))]);
          ("avg_count", JFloatStr avg);
          ("distinct_values", py_str (distinct_values stats))] in
       ordered_counts <- ask (QOrdered lud) (orderBy_desc_collect value_counts) ;;
       ma <- lift (moving_average ordered_counts) ;;
       let lud_density_details := dict_set "moving_average" ma lud_density_details in
       r <- _create_test_result
              (if truthy (jget "below_acceptable_average" (JBool true)
                            (jget "moving_average" (JDict []) (JDict lud_density_details)))
               then "Failed" else "Passed")
              (JDict lud_density_details) ;;
       ret (set_result self "lud_density" r))
      (fun e =>
         r <- _create_test_result "Error" (JStr (exn_msg e)) ;;
         ret (set_result self "lud_density" r)).

(** *** Running the checks *)

Definition test_methods : list (string * (SparkDQTesting -> M SparkDQTesting)) :=
  [("find_duplicates", find_duplicates);
   ("find_nulls", find_nulls);
   ("check_completeness", check_completeness);
   ("values_range", values_range);
   ("key_density", key_density);
   ("lud_density", lud_density)].

(** [for test_name, test_method in methods: test_method()] *)
Fixpoint run_methods (methods : list (string * (SparkDQTesting -> M SparkDQTesting)))
    (self : SparkDQTesting) : M SparkDQTesting :=
  match methods with
  | [] => ret self
  | (_, test_method) :: rest =>
      self' <- test_method self ;;
      run_methods rest self'
  end.

(** Returns the report, which is the dictionary [self.testing_results]
    itself, and the object as the run left it. *)
Definition run_all_tests (self : SparkDQTesting)
  : M (dict TestResult * SparkDQTesting) :=
  self' <- run_methods test_methods self ;;
  ret (testing_results self', self').

(** [main], for a configuration given as argument; its result is the report
    that it prints. *)
Definition main (spark : SparkSession) (config : Config) : M (dict TestResult) :=
  try_except
    (unit_tests <- __init__ spark config ;;
     '(results, _) <- run_all_tests unit_tests ;;
     ret results)
    (fun e =>
       raiseM PlainException
         ("An error occurred while executing the DQ tests: " ++ exn_msg e)).

(** ** A provider of the Spark interface: tables in memory

    A table is a list of column names and a list of rows.  The queries have
    their SQL meaning: null is a value of its own for grouping, aggregates
    skip nulls, a descending order puts nulls last, and a query that names a
    column the table does not have fails in analysis. *)

Inductive cell :=
| CNull
| CInt (z : Z)
| CStr (s : string).

Record Table := { t_columns : list string; t_rows : list (list cell) }.

Definition cell_eq_dec (a b : cell) : {a = b} + {a <> b}.
Proof.
  decide equality; [apply Z.eq_dec | apply string_dec].
Defined.

Definition tuple_eq_dec : forall a b : list cell, {a = b} + {a <> b} :=
  list_eq_dec cell_eq_dec.

Definition cell_to_py (c : cell) : pyval :=
  match c with
  | CNull => VNone
  | CInt z => VInt z
  | CStr s => VStr s
  end.

(** The cell of [row] under [column]. *)
Fixpoint cell_at (columns : list string) (row : list cell) (column : string) : cell :=
  match columns, row with
  | c :: cs, x :: xs => if String.eqb column c then x else cell_at cs xs column
  | _, _ => CNull
  end.

Definition is_null (c : cell) : bool :=
  match c with CNull => true | _ => false end.

Definition column_cells (t : Table) (column : string) : list cell :=
  map (fun row => cell_at (t_columns t) row column) (t_rows t).

Definition key_tuples (t : Table) (keys : list string) : list (list cell) :=
  map (fun row => map (cell_at (t_columns t) row) keys) (t_rows t).

Definition unresolved {A} (column : string) : res A :=
  raise AnalysisException ("Column '" ++ column ++ "' does not exist").

(** The first of [columns] that the table does not have. *)
Definition first_missing (t : Table) (columns : list string) : option string :=
  find (fun c => negb (mem c (t_columns t))) columns.

(** Hash aggregation: one counter per distinct key, in order of first
    appearance. *)
Fixpoint bump {K} (eq_dec : forall a b : K, {a = b} + {a <> b}) (k : K)
    (acc : list (K * Z)) : list (K * Z) :=
  match acc with
  | [] => [(k, 1)]
  | (k', n) :: r =>
      if eq_dec k k' then (k', n + 1) :: r else (k', n) :: bump eq_dec k r
  end.

Definition group_count {K} (eq_dec : forall a b : K, {a = b} + {a <> b})
    (l : list K) : list (K * Z) :=
  fold_left (fun acc k => bump eq_dec k acc) l [].

(** The order of cells: null first, then integers, then text. *)
Fixpoint string_ltb (a b : string) : bool :=
  match a, b with
  | _, EmptyString => false
  | EmptyString, String _ _ => true
  | String x a', String y b' =>
      let nx := N_of_ascii x in
      let ny := N_of_ascii y in
      if (nx <? ny)%N then true
      else if (ny <? nx)%N then false
      else string_ltb a' b'
  end.

Definition cell_ltb (a b : cell) : bool :=
  match a, b with
  | _, CNull => false
  | CNull, _ => true
  | CInt x, CInt y => x <? y
  | CInt _, CStr _ => true
  | CStr _, CInt _ => false
  | CStr x, CStr y => string_ltb x y
  end.

(** Insertion sort, greatest value first. *)
Fixpoint insert_desc (x : cell * Z) (l : list (cell * Z)) : list (cell * Z) :=
  match l with
  | [] => [x]
  | y :: r => if cell_ltb (fst x) (fst y) then y :: insert_desc x r else x :: l
  end.

Definition sort_desc (l : list (cell * Z)) : list (cell * Z) :=
  fold_right insert_desc [] l.

Definition max_cell (a b : cell) : cell := if cell_ltb a b then b else a.
Definition min_cell (a b : cell) : cell := if cell_ltb b a then b else a.

(** Aggregates over the non-null cells; null when there is none. *)
Definition agg_cells (f : cell -> cell -> cell) (l : list cell) : cell :=
  match filter (fun c => negb (is_null c)) l with
  | [] => CNull
  | c :: r => fold_left f r c
  end.

Definition ints_of (l : list cell) : list Z :=
  flat_map (fun c => match c with CInt z => [z] | _ => [] end) l.

(** The average of a list of integers, as a double; null for no value. *)
Definition avg_ints (l : list Z) : pyval :=
  match l with
  | [] => VNone
  | _ => match int_truediv (sum l) (Z.of_nat (List.length l)) with
         | inr f => VFloat f
         | inl _ => VNone
         end
  end.

Definition max_ints (l : list Z) : pyval :=
  match l with
  | [] => VNone
  | z :: r => VInt (fold_left Z.max r z)
  end.

Definition min_ints (l : list Z) : pyval :=
  match l with
  | [] => VNone
  | z :: r => VInt (fold_left Z.min r z)
  end.

(** [groupBy(column).count()] over the groups of a column. *)
Definition grouped_counts (groups : list (cell * Z)) : GroupedCounts :=
  {| agg_first :=
       inr {| max_count := max_ints (map snd groups);
              min_count := min_ints (map snd groups);
              avg_count := avg_ints (map snd groups);
              distinct_values := VInt (Z.of_nat (List.length groups)) |};
     where_count_first := fun n =>
       match n with
       | VInt k => inr (option_map (fun g => cell_to_py (fst g))
                          (find (fun g => snd g =? k) groups))
       | _ => inr None
       end;
     orderBy_desc_collect :=
       inr (map (fun g => (cell_to_py (fst g), snd g)) (sort_desc groups)) |}.

Definition table_frame (t : Table) : DataFrame :=
  {| columns := t_columns t;
     count := inr (Z.of_nat (List.length (t_rows t)));
     groupBy_where_gt1_count := fun keys =>
       match first_missing t keys with
       | Some c => unresolved c
       | None =>
           inr (Z.of_nat (List.length
                  (filter (fun g => 1 <? snd g)
                     (group_count tuple_eq_dec (key_tuples t keys)))))
       end;
     where_isNull_count := fun c =>
       if mem c (t_columns t)
       then inr (Z.of_nat (List.length (filter is_null (column_cells t c))))
       else unresolved c;
     select_stats_first := fun c =>
       if mem c (t_columns t)
       then inr {| r_max := cell_to_py (agg_cells max_cell (column_cells t c));
                   r_min := cell_to_py (agg_cells min_cell (column_cells t c));
                   r_avg := avg_ints (ints_of (column_cells t c)) |}
       else unresolved c;
     groupBy_count := fun c =>
       if mem c (t_columns t)
       then inr (grouped_counts (group_count cell_eq_dec (column_cells t c)))
       else unresolved c |}.

(** A session that serves one table under the query that names it. *)
Definition table_session (query : string) (t : Table) : SparkSession :=
  {| sql := fun q =>
       if String.eqb q query then inr (table_frame t)
       else raise AnalysisException "Table or view not found" |}.

(** ** The checks as computations of a status and a payload

    Each method runs the statements of its [try] block, stores their
    result, and stores an [Error] result when they raise.  The statements
    that compute the status and the details are named here; the lemmas
    [*_guarded] below relate each method to them. *)

Definition find_duplicates_try (self : SparkDQTesting) : M (string * jval) :=
  duplicate_count <- ask (QDuplicates (key_columns self))
                        (groupBy_where_gt1_count (table_df self) (key_columns self)) ;;
  ret (if duplicate_count =? 0 then "Passed" else "Failed",
       JDict [("duplicated_rows_count", JInt duplicate_count)]).

Definition find_nulls_try (self : SparkDQTesting) : M (string * jval) :=
  null_details <- null_counts (table_df self) (key_columns self) [] ;;
  let nulls_sum := sum (dict_values null_details) in
  ret (if nulls_sum =? 0 then "Passed" else "Failed",
       JDict [("total_null_count", JInt nulls_sum);
              ("nulls_by_column", jint_dict null_details)]).

Definition check_completeness_try (self : SparkDQTesting) : M (string * jval) :=
  match set_difference (table_columns self) (key_columns self) with
  | [] => ret ("Skipped", JStr "Every column is a key column")
  | non_key_columns =>
      '(null_details, status) <- completeness_loop (table_df self) (table_count self)
                                     non_key_columns [] "Passed" ;;
      ret (status, JDict [("nulls_percentage_by_column", JDict null_details)])
  end.

Definition values_range_try (self : SparkDQTesting) : M (string * jval) :=
  range_details <- values_range_loop (table_df self)
                     (set_difference (table_columns self) (key_columns self)) [] ;;
  ret ("Passed", JDict [("values_range_details", JDict range_details)]).

Definition key_density_try (self : SparkDQTesting) : M (string * jval) :=
  key_density <- key_density_loop (table_df self) (key_columns self) [] ;;
  ret ("Passed", JDict [("key_density_details", JDict key_density)]).

(** The details of [lud_density] before the moving average is entered. *)
Definition lud_details (stats : CountsRow) (max_value min_value : option pyval)
    (avg : float) : dict jval :=
  [("max_count", JDict [("value", str_or_None max_value);
                        ("count", py_str (max_count stats))]);
   ("min_count", JDict [("value", str_or_None min_value);
                        ("count", py_str (min_count stats))]);
   ("avg_count", JFloatStr avg);
   ("distinct_values", py_str (distinct_values stats))].

Definition lud_status (lud_density_details : dict jval) : string :=
  if truthy (jget "below_acceptable_average" (JBool true)
               (jget "moving_average" (JDict []) (JDict lud_density_details)))
  then "Failed" else "Passed".

Definition lud_density_try (self : SparkDQTesting) : M (string * jval) :=
  let lud := match lud_column self with Some c => c | None => "" end in
  value_counts <- ask (QGroupBy lud) (groupBy_count (table_df self) lud) ;;
  stats <- ask (QAgg lud) (agg_first value_counts) ;;
  max_value <- ask (QWhereCount lud (max_count stats))
                 (where_count_first value_counts (max_count stats)) ;;
  min_value <- ask (QWhereCount lud (min_count stats))
                 (where_count_first value_counts (min_count stats)) ;;
  avg <- lift (py_float (avg_count stats)) ;;
  ordered_counts <- ask (QOrdered lud) (orderBy_desc_collect value_counts) ;;
  ma <- lift (moving_average ordered_counts) ;;
  let lud_density_details :=
    dict_set "moving_average" ma (lud_details stats max_value min_value avg) in
  ret (lud_status lud_density_details, JDict lud_density_details).

(** The common shape of the six methods. *)
Definition guarded (name : string) (attempt : M (string * jval))
    (self : SparkDQTesting) : M SparkDQTesting :=
  try_except
    ('(status, details) <- attempt ;;
     r <- _create_test_result status details ;;
     ret (set_result self name r))
    (fun e =>
       r <- _create_test_result "Error" (JStr (exn_msg e)) ;;
       ret (set_result self name r)).

(** The checks that a run executes, in order, with what each computes. *)
Definition attempts (self : SparkDQTesting) : list (string * M (string * jval)) :=
  ([("find_duplicates", find_duplicates_try self);
    ("find_nulls", find_nulls_try self);
    ("check_completeness", check_completeness_try self);
    ("values_range", values_range_try self);
    ("key_density", key_density_try self)]
   ++ (if configured (lud_column self)
       then [("lud_density", lud_density_try self)] else []))%list.

(** A world to read off what a computation returns when that does not
    depend on the world. *)
Definition blank : World := {| clock := fun _ => ""; ticks := 0; issued := [] |}.

Definition outcome {A} (m : M A) : res A := fst (m blank).

(** The result that a method stores for an outcome, read at time [ts]. *)
Definition result_of (out : res (string * jval)) (ts : string) : TestResult :=
  match out with
  | inr (st, d) => {| status := st; timestamp := ts; details := d |}
  | inl e => {| status := "Error"; timestamp := ts; details := JStr (exn_msg e) |}
  end.

(** A report without its timestamps. *)
Definition untimed (report : dict TestResult) : list (string * (string * jval)) :=
  map (fun kv => (fst kv, (status (snd kv), details (snd kv)))) report.

(** [m] neither reads the world nor moves the clock. *)
Definition oblivious {A} (m : M A) : Prop :=
  forall w, fst (m w) = outcome m /\
            clock (snd (m w)) = clock w /\ ticks (snd (m w)) = ticks w.

(** The report after the checks [l] have stored their results, the first
    at reading [t] of the clock. *)
Fixpoint record_all (l : list (string * M (string * jval))) (clk : nat -> string)
    (t : nat) (results : dict TestResult) : dict TestResult :=
  match l with
  | [] => results
  | (name, attempt) :: rest =>
      record_all rest clk (S t)
        (dict_set name (result_of (outcome attempt) (clk t)) results)
  end.

(** The status and details that a check contributes: those that its
    attempt computes, or [Error] with the message of what it raised. *)
Definition verdict (out : res (string * jval)) : string * jval :=
  match out with
  | inr sd => sd
  | inl e => ("Error", JStr (exn_msg e))
  end.

(** [record_all] on reports without timestamps. *)
Fixpoint record_verdicts (l : list (string * M (string * jval)))
    (u : dict (string * jval)) : dict (string * jval) :=
  match l with
  | [] => u
  | (name, attempt) :: rest =>
      record_verdicts rest (dict_set name (verdict (outcome attempt)) u)
  end.

(** The attributes that [__init__] sets from its arguments. *)
Definition init_attrs (cfg : Config) : Attributes :=
  {| table_schema := as_str (cfg_table_schema cfg);
     table_name := as_str (cfg_table_name cfg);
     key_columns := as_str_list (cfg_key_columns cfg);
     lud_column := cfg_lud_column cfg;
     partition := cfg_partition cfg;
     testing_results := [] |}.

(** The arguments have the types that [_validate_inputs] asks for. *)
Definition valid_types (cfg : Config) : bool :=
  isinstance_str (cfg_table_schema cfg) && isinstance_str (cfg_table_name cfg)
  && match cfg_key_columns cfg with
     | AList l => forallb is_str l
     | AVal _ => false
     end.

(** The world after the queries [qs] have been sent. *)
Definition logged (w : World) (qs : list query) : World :=
  {| clock := clock w; ticks := ticks w; issued := (issued w ++ qs)%list |}.

Definition check_names : list string :=
  ["find_duplicates"; "find_nulls"; "check_completeness"; "values_range";
   "key_density"].

(** ** Sample data *)

Definition sales : Table :=
  {| t_columns := ["id"; "day"; "amount"; "note"];
     t_rows := [[CInt 1; CStr "2024-01-01"; CInt 10; CStr "first"];
                [CInt 2; CStr "2024-01-01"; CNull; CStr "second"];
                [CInt 2; CStr "2024-01-02"; CInt 30; CNull];
                [CNull; CStr "2024-01-03"; CInt 40; CStr "12"]] |}.

Definition sales_session : SparkSession := table_session "SELECT * FROM shop.sales" sales.

Definition sales_config (keys : list string) (lud : option string) : Config :=
  {| cfg_table_schema := AVal (VStr "shop");
     cfg_table_name := AVal (VStr "sales");
     cfg_key_columns := AList (map VStr keys);
     cfg_lud_column := lud;
     cfg_partition := None |}.

(** The object that [__init__] builds over [sales]. *)
Definition sales_checker (keys : list string) (lud : option string) : SparkDQTesting :=
  {| attrs := init_attrs (sales_config keys lud);
     table_df := table_frame sales;
     table_columns := t_columns sales;
     table_count := 4 |}.

(** The attributes with another [partition]. *)
Definition with_partition (self : Attributes) (p : option (dict partition_value))
  : Attributes :=
  {| table_schema := table_schema self;
     table_name := table_name self;
     key_columns := key_columns self;
     lud_column := lud_column self;
     partition := p;
     testing_results := testing_results self |}.

(** The text that [_build_query] puts between the parentheses. *)
Definition partition_text (value : partition_value) : string :=
  match value with
  | POne v => v
  | PMany l => join "," l
  end.

(** The run ends with an exception and without a report. *)
Definition aborts (spark : SparkSession) (cfg : Config) : Prop :=
  forall w, exists e w', main spark cfg w = (inl e, w').

(** The exception that [main] raises for the message of another. *)
Definition wrapped (msg : string) : exn :=
  Exn PlainException ("An error occurred while executing the DQ tests: " ++ msg).

(** A configuration whose key columns are a string, not a list. *)
Definition keys_not_a_list : Config :=
  {| cfg_table_schema := AVal (VStr "shop");
     cfg_table_name := AVal (VStr "sales");
     cfg_key_columns := AVal (VStr "id");
     cfg_lud_column := None;
     cfg_partition := None |}.

(** A session that knows no table. *)
Definition lost_session : SparkSession :=
  {| sql := fun _ => raise AnalysisException "Table or view not found" |}.

(** A frame whose jobs fail. *)
Definition stalled_frame : DataFrame :=
  {| columns := t_columns sales;
     count := raise Py4JJavaError "Job aborted";
     groupBy_where_gt1_count := fun _ => raise Py4JJavaError "Job aborted";
     where_isNull_count := fun _ => raise Py4JJavaError "Job aborted";
     select_stats_first := fun _ => raise Py4JJavaError "Job aborted";
     groupBy_count := fun _ => raise Py4JJavaError "Job aborted" |}.

Definition stalled_session : SparkSession := {| sql := fun _ => inr stalled_frame |}.

Definition no_sales : Table := {| t_columns := t_columns sales; t_rows := [] |}.

(** The columns that [check_completeness] and [values_range] go through. *)
Definition non_key_columns (self : SparkDQTesting) : list string :=
  set_difference (table_columns self) (key_columns self).

(** The entry of [values_range] for a column. *)
Definition range_entry (stats : StatsRow) : jval :=
  JDict [("max", py_str (r_max stats));
         ("min", py_str (r_min stats));
         ("avg", py_str (r_avg stats))].

(** The exception is one that the inner [try] of [values_range] catches. *)
Definition value_or_type_error (e : exn) : Prop :=
  exn_cls e = ValueError \/ exn_cls e = TypeError.






(** Seven days in descending order: the latest with [current] rows, each of
    the six before with ten. *)
Definition week (current : Z) : list (pyval * Z) :=
  [(VStr "d7", current); (VStr "d6", 10); (VStr "d5", 10); (VStr "d4", 10);
   (VStr "d3", 10); (VStr "d2", 10); (VStr "d1", 10)].











(** ** Definitions for the further properties *)

(** The object with another report. *)
Definition replace_results (self : SparkDQTesting) (results : dict TestResult)
  : SparkDQTesting :=
  {| attrs := {| table_schema := table_schema self;
                 table_name := table_name self;
                 key_columns := key_columns self;
                 lud_column := lud_column self;
                 partition := partition self;
                 testing_results := results |};
     table_df := table_df self;
     table_columns := table_columns self;
     table_count := table_count self |}.

(** The elements of [l], each at the place where it first occurs. *)
Fixpoint distinct (l : list string) : list string :=
  match l with
  | [] => []
  | c :: r => c :: filter (fun x => negb (String.eqb x c)) (distinct r)
  end.



(** The entry of [key_density] for a column. *)
Definition key_density_entry (stats : CountsRow) (max_value min_value : option pyval)
    (total : Z) : jval :=
  JDict [("max_count", JDict [("value", str_or_None max_value);
                              ("count", py_str (max_count stats))]);
         ("min_count", JDict [("value", str_or_None min_value);
                              ("count", py_str (min_count stats))]);
         ("avg_count", py_str (avg_count stats));
         ("distinct_values", py_str (distinct_values stats));
         ("total_records", JStr (str_of_int total))].

(** What the five queries of [key_density] give for a column: its entry,
    or the exception of the first query that raises. *)
Definition key_density_column (df : DataFrame) (column : string) : res jval :=
  res_bind (groupBy_count df column) (fun value_counts =>
  res_bind (agg_first value_counts) (fun stats =>
  res_bind (where_count_first value_counts (max_count stats)) (fun max_value =>
  res_bind (where_count_first value_counts (min_count stats)) (fun min_value =>
  res_bind (count df) (fun total =>
    inr (key_density_entry stats max_value min_value total)))))).

(** * Properties *)

(** ** Python numbers *)

(** [float()] on some strings. *)
Example float_of_string_samples :
  float_of_string " 12.5 " = Some (S754_finite false 7036874417766400 (-49)) /\
  float_of_string "1_000e-3" = Some (float_of_Z 1) /\
  float_of_string "-Infinity" = Some (S754_infinity true) /\
  float_of_string "0.4" = Some float_0_4 /\
  float_of_string "abc" = None /\
  float_of_string "2024-01-31" = None /\
  float_of_string "1e" = None /\
  float_of_string "." = None /\
  float_of_string "" = None.
Proof. vm_compute. repeat split. Qed.


(** ** The monad *)

Lemma oblivious_ret {A} (a : A) : oblivious (ret a).
Proof. intro w. repeat split. Qed.

Lemma oblivious_lift {A} (r : res A) : oblivious (lift r).
Proof. intro w. repeat split. Qed.

Lemma oblivious_ask {A} (q : query) (r : res A) : oblivious (ask q r).
Proof. intro w. repeat split. Qed.

Lemma oblivious_bind {A B} (m : M A) (k : A -> M B) :
  oblivious m -> (forall a, oblivious (k a)) -> oblivious (bind m k).
Proof.
  intros Hm Hk w. unfold outcome, bind.
  destruct (Hm w) as (H1 & H2 & H3). unfold outcome in H1.
  destruct (m w) as [[e | a] w1], (m blank) as [[e' | a'] wb];
    simpl in *; try discriminate.
  - repeat split; congruence.
  - injection H1 as ->.
    destruct (Hk a' w1) as (K1 & K2 & K3), (Hk a' wb) as (L1 & _).
    rewrite K1, L1, K2, K3. repeat split; congruence.
Qed.

Lemma oblivious_try_except {A} (m : M A) (h : exn -> M A) :
  oblivious m -> (forall e, oblivious (h e)) -> oblivious (try_except m h).
Proof.
  intros Hm Hh w. unfold outcome, try_except.
  destruct (Hm w) as (H1 & H2 & H3). unfold outcome in H1.
  destruct (m w) as [[e | a] w1], (m blank) as [[e' | a'] wb];
    simpl in *; try discriminate.
  - injection H1 as ->.
    destruct (Hh e' w1) as (K1 & K2 & K3), (Hh e' wb) as (L1 & _).
    rewrite K1, L1, K2, K3. repeat split; congruence.
  - repeat split; congruence.
Qed.

Lemma oblivious_try_except_value_type {A} (m h : M A) :
  oblivious m -> oblivious h -> oblivious (try_except_value_type m h).
Proof.
  intros Hm Hh. apply oblivious_try_except; [assumption |].
  intro e. destruct (exn_cls e); auto using oblivious_lift.
Qed.

Create HintDb oblivious.
#[local] Hint Resolve oblivious_ret oblivious_lift oblivious_ask oblivious_bind
  oblivious_try_except_value_type : oblivious.

(** What [bind] returns once the outcome of its first part is known. *)
Lemma outcome_bind {A B} (m : M A) (k : A -> M B) :
  oblivious m -> (forall a, oblivious (k a)) ->
  outcome (bind m k) = res_bind (outcome m) (fun a => outcome (k a)).
Proof.
  intros Hm Hk. unfold outcome at 1, bind, res_bind.
  unfold outcome at 1.
  destruct (m blank) as [[e | a] wb]; simpl; [reflexivity |].
  apply (Hk a wb).
Qed.

Lemma outcome_ask {A} (q : query) (r : res A) : outcome (ask q r) = r.
Proof. reflexivity. Qed.

Lemma outcome_lift {A} (r : res A) : outcome (lift r) = r.
Proof. reflexivity. Qed.

Lemma outcome_ret {A} (a : A) : outcome (ret a) = inr a.
Proof. reflexivity. Qed.

(** ** The loops do not read the world *)

Lemma oblivious_null_counts df columns acc : oblivious (null_counts df columns acc).
Proof.
  revert acc. induction columns as [| c r IH]; intro acc; simpl;
    auto with oblivious.
Qed.

Lemma oblivious_completeness_loop df n columns d st :
  oblivious (completeness_loop df n columns d st).
Proof.
  revert d st. induction columns as [| c r IH]; intros d st; simpl;
    auto 10 with oblivious.
Qed.

Lemma oblivious_values_range_loop df columns d :
  oblivious (values_range_loop df columns d).
Proof.
  revert d. induction columns as [| c r IH]; intro d; simpl;
    auto 10 with oblivious.
Qed.

Lemma oblivious_key_density_loop df columns d :
  oblivious (key_density_loop df columns d).
Proof.
  revert d. induction columns as [| c r IH]; intro d; simpl;
    auto 12 with oblivious.
Qed.

#[local] Hint Resolve oblivious_null_counts oblivious_completeness_loop
  oblivious_values_range_loop oblivious_key_density_loop : oblivious.

Lemma oblivious_find_duplicates_try self : oblivious (find_duplicates_try self).
Proof. unfold find_duplicates_try. auto with oblivious. Qed.

Lemma oblivious_find_nulls_try self : oblivious (find_nulls_try self).
Proof. unfold find_nulls_try. auto with oblivious. Qed.

Lemma oblivious_check_completeness_try self : oblivious (check_completeness_try self).
Proof.
  unfold check_completeness_try.
  destruct (set_difference _ _); [auto with oblivious |].
  apply oblivious_bind; [auto with oblivious |].
  intros [d st]. auto with oblivious.
Qed.

Lemma oblivious_values_range_try self : oblivious (values_range_try self).
Proof. unfold values_range_try. auto with oblivious. Qed.

Lemma oblivious_key_density_try self : oblivious (key_density_try self).
Proof. unfold key_density_try. auto with oblivious. Qed.

Lemma oblivious_lud_density_try self : oblivious (lud_density_try self).
Proof. unfold lud_density_try. auto 20 with oblivious. Qed.

Lemma oblivious_attempts self name attempt :
  In (name, attempt) (attempts self) -> oblivious attempt.
Proof.
  unfold attempts. intro H. apply in_app_or in H. destruct H as [H | H].
  - simpl in H.
    repeat (destruct H as [H | H];
            [injection H as _ <-;
             auto using oblivious_find_duplicates_try, oblivious_find_nulls_try,
               oblivious_check_completeness_try, oblivious_values_range_try,
               oblivious_key_density_try |]).
    contradiction.
  - destruct (configured _); simpl in H; [| contradiction].
    destruct H as [H | []]. injection H as _ <-. apply oblivious_lud_density_try.
Qed.

(** ** Each method is its [try] block under the common guard *)

Lemma find_duplicates_guarded self w :
  find_duplicates self w = guarded "find_duplicates" (find_duplicates_try self) self w.
Proof.
  unfold find_duplicates, find_duplicates_try, guarded, try_except, bind, ask, ret.
  destruct (groupBy_where_gt1_count _ _); reflexivity.
Qed.

Lemma find_nulls_guarded self w :
  find_nulls self w = guarded "find_nulls" (find_nulls_try self) self w.
Proof.
  unfold find_nulls, find_nulls_try, guarded, try_except, bind.
  destruct (null_counts _ _ _ w) as [[e | d] w1]; reflexivity.
Qed.

Lemma check_completeness_guarded self w :
  check_completeness self w
  = guarded "check_completeness" (check_completeness_try self) self w.
Proof.
  unfold check_completeness, check_completeness_try, guarded, try_except.
  destruct (set_difference _ _) as [| c r]; [reflexivity |].
  unfold bind.
  destruct (completeness_loop _ _ _ _ _ w) as [[e | [d st]] w1]; reflexivity.
Qed.

Lemma values_range_guarded self w :
  values_range self w = guarded "values_range" (values_range_try self) self w.
Proof.
  unfold values_range, values_range_try, guarded, try_except, bind.
  destruct (values_range_loop _ _ _ w) as [[e | d] w1]; reflexivity.
Qed.

Lemma key_density_guarded self w :
  key_density self w = guarded "key_density" (key_density_try self) self w.
Proof.
  unfold key_density, key_density_try, guarded, try_except, bind.
  destruct (key_density_loop _ _ _ w) as [[e | d] w1]; reflexivity.
Qed.

Lemma lud_density_guarded self w :
  lud_density self w
  = if configured (lud_column self)
    then guarded "lud_density" (lud_density_try self) self w
    else (inr self, w).
Proof.
  unfold lud_density. destruct (configured _); [| reflexivity]. simpl.
  unfold lud_density_try, guarded, try_except, bind, ask, lift.
  destruct (groupBy_count _ _) as [e | vc]; [reflexivity |].
  destruct (agg_first vc) as [e | stats]; [reflexivity |].
  destruct (where_count_first vc (max_count stats)) as [e | mx]; [reflexivity |].
  destruct (where_count_first vc (min_count stats)) as [e | mn]; [reflexivity |].
  destruct (py_float _) as [e | avg]; [reflexivity |].
  destruct (orderBy_desc_collect vc) as [e | oc]; [reflexivity |].
  destruct (moving_average oc) as [e | ma]; reflexivity.
Qed.

(** A guarded method never raises: it stores the result of its attempt,
    read at the current time, and takes one reading of the clock. *)
Lemma guarded_run name attempt self w :
  oblivious attempt ->
  exists w',
    guarded name attempt self w
    = (inr (set_result self name (result_of (outcome attempt) (clock w (ticks w)))), w')
    /\ clock w' = clock w /\ ticks w' = S (ticks w)
    /\ issued w' = issued (snd (attempt w)).
Proof.
  intro Hob. destruct (Hob w) as (H1 & H2 & H3).
  unfold guarded, try_except, bind, _create_test_result, datetime_now_isoformat, ret.
  destruct (attempt w) as [[e | [st d]] w1]; simpl in *; rewrite <- H1, H2, H3;
    eexists; repeat split.
Qed.

(** ** The run *)

(** One step of [run_methods]: a method in guarded form stores the result of
    its attempt and hands the object to the rest of the list. *)
Lemma run_methods_step name (meth : SparkDQTesting -> M SparkDQTesting)
    attempt rest self w :
  (forall w0, meth self w0 = guarded name attempt self w0) ->
  oblivious attempt ->
  exists w',
    run_methods ((name, meth) :: rest) self w
    = run_methods rest
        (set_result self name (result_of (outcome attempt) (clock w (ticks w)))) w'
    /\ clock w' = clock w /\ ticks w' = S (ticks w).
Proof.
  intros Hg Hob.
  destruct (guarded_run name attempt self w Hob) as (w' & E & Hc & Ht & _).
  exists w'. split; [| split; assumption].
  simpl. unfold bind. rewrite Hg, E. reflexivity.
Qed.

Ltac step_method lem ob :=
  match goal with
  | |- context [run_methods ((?name, ?meth) :: ?rest) ?self ?w] =>
      let w' := fresh "w" in
      let E := fresh "E" in
      let Hc := fresh "Hc" in
      let Ht := fresh "Ht" in
      destruct (run_methods_step name meth _ rest self w
                  (lem self) (ob self)) as (w' & E & Hc & Ht);
      rewrite E; clear E;
      repeat match goal with
             | H : clock w = _ |- _ => rewrite H in *; clear H
             | H : ticks w = _ |- _ => rewrite H in *; clear H
             end
  end.

Lemma run_methods_spec self w :
  exists (self' : SparkDQTesting) w',
    run_methods test_methods self w = (inr self', w')
    /\ testing_results self'
       = record_all (attempts self) (clock w) (ticks w) (testing_results self)
    /\ attempts self' = attempts self
    /\ clock w' = clock w.
Proof.
  unfold test_methods.
  step_method find_duplicates_guarded oblivious_find_duplicates_try.
  step_method find_nulls_guarded oblivious_find_nulls_try.
  step_method check_completeness_guarded oblivious_check_completeness_try.
  step_method values_range_guarded oblivious_values_range_try.
  step_method key_density_guarded oblivious_key_density_try.
  simpl run_methods. unfold bind at 1. rewrite lud_density_guarded. unfold attempts.
  change (lud_column (set_result _ _ _)) with (lud_column self).
  destruct (configured (lud_column self)) eqn:Hcfg.
  - match goal with
    | |- context [guarded _ _ ?s ?w] =>
        destruct (guarded_run "lud_density" _ s w (oblivious_lud_density_try s))
          as (w' & E & Hc' & _); rewrite E
    end.
    rewrite Hc in *. rewrite Ht.
    eexists _, _. split; [reflexivity |]. split; [reflexivity |].
    split; [| assumption].
    cbn [lud_column attrs set_result]. rewrite Hcfg. reflexivity.
  - eexists _, _. split; [reflexivity |]. split; [reflexivity |].
    split; [| assumption].
    cbn [lud_column attrs set_result]. rewrite Hcfg. reflexivity.
Qed.

Lemma run_all_tests_spec self w :
  exists (self' : SparkDQTesting) w',
    run_all_tests self w = (inr (testing_results self', self'), w')
    /\ testing_results self'
       = record_all (attempts self) (clock w) (ticks w) (testing_results self)
    /\ attempts self' = attempts self
    /\ clock w' = clock w.
Proof.
  destruct (run_methods_spec self w) as (self' & w' & E & H).
  exists self', w'. split; [| exact H].
  unfold run_all_tests, bind. rewrite E. reflexivity.
Qed.

(** ** Dictionaries *)

Lemma dict_get_set_same {V} k (v : V) d : dict_get k (dict_set k v d) = Some v.
Proof.
  induction d as [| [k' v'] r IH]; simpl.
  - rewrite String.eqb_refl. reflexivity.
  - destruct (String.eqb k k') eqn:E; simpl; rewrite E; auto.
Qed.

Lemma dict_get_set_other {V} k k' (v : V) d :
  k <> k' -> dict_get k (dict_set k' v d) = dict_get k d.
Proof.
  intro Hne. induction d as [| [k2 v2] r IH]; simpl.
  - apply String.eqb_neq in Hne. rewrite Hne. reflexivity.
  - destruct (String.eqb k' k2) eqn:E; simpl.
    + apply String.eqb_eq in E. subst k2.
      apply String.eqb_neq in Hne. rewrite Hne. reflexivity.
    + destruct (String.eqb k k2); auto.
Qed.

Lemma dict_keys_set {V} k (v : V) d :
  dict_keys (dict_set k v d)
  = if mem k (dict_keys d) then dict_keys d else (dict_keys d ++ [k])%list.
Proof.
  unfold dict_keys, mem.
  induction d as [| [k' v'] r IH]; simpl; [reflexivity |].
  destruct (String.eqb k k') eqn:E; simpl; [reflexivity |].
  rewrite IH. destruct (existsb _ _); reflexivity.
Qed.

(** Assigning the value that a key already has changes nothing. *)
Lemma dict_set_same {V} k (v : V) d : dict_get k d = Some v -> dict_set k v d = d.
Proof.
  induction d as [| [k' v'] r IH]; simpl; [discriminate |].
  destruct (String.eqb k k') eqn:E.
  - intro H. injection H as ->. reflexivity.
  - intro H. rewrite IH by assumption. reflexivity.
Qed.

Lemma dict_set_map {V W} (f : V -> W) k v d :
  map (fun kv => (fst kv, f (snd kv))) (dict_set k v d)
  = dict_set k (f v) (map (fun kv => (fst kv, f (snd kv))) d).
Proof.
  induction d as [| [k' v'] r IH]; simpl; [reflexivity |].
  destruct (String.eqb k k'); simpl; [reflexivity |].
  rewrite IH. reflexivity.
Qed.

Lemma dict_get_In {V} k (v : V) d : dict_get k d = Some v -> In (k, v) d.
Proof.
  induction d as [| [k' v'] r IH]; simpl; [discriminate |].
  destruct (String.eqb k k') eqn:E.
  - apply String.eqb_eq in E. subst. intro H. injection H as ->. auto.
  - auto.
Qed.

Lemma mem_In c l : mem c l = true <-> In c l.
Proof.
  unfold mem. rewrite existsb_exists. split.
  - intros (x & Hx & E). apply String.eqb_eq in E. subst. assumption.
  - intro H. exists c. split; [assumption | apply String.eqb_refl].
Qed.

Lemma dict_get_None {V} k (d : dict V) :
  dict_get k d = None <-> ~ In k (dict_keys d).
Proof.
  unfold dict_keys. induction d as [| [k' v'] r IH]; simpl; [tauto |].
  destruct (String.eqb k k') eqn:E.
  - apply String.eqb_eq in E. subst. split; [discriminate | tauto].
  - apply String.eqb_neq in E. rewrite IH. split; [| tauto].
    intros H [H1 | H1]; [congruence | tauto].
Qed.

(** ** The report of a run *)

Lemma record_all_other l clk t d name :
  ~ In name (map fst l) ->
  dict_get name (record_all l clk t d) = dict_get name d.
Proof.
  revert t d. induction l as [| [n a] r IH]; intros t d Hn; simpl; [reflexivity |].
  simpl in Hn. rewrite IH by tauto. apply dict_get_set_other. intro. subst. tauto.
Qed.

Lemma record_all_get l clk t d name attempt :
  NoDup (map fst l) -> In (name, attempt) l ->
  exists ts, dict_get name (record_all l clk t d)
             = Some (result_of (outcome attempt) ts).
Proof.
  revert t d. induction l as [| [n a] r IH]; intros t d Hnd Hin; [contradiction |].
  simpl in *. inversion Hnd as [| ? ? Hn Hr]; subst.
  destruct Hin as [E | Hin].
  - injection E as -> ->. exists (clk t).
    rewrite record_all_other by assumption. apply dict_get_set_same.
  - apply IH; assumption.
Qed.

Lemma record_all_keys l clk t d :
  dict_keys (record_all l clk t d)
  = fold_left (fun ks n => if mem n ks then ks else (ks ++ [n])%list)
      (map fst l) (dict_keys d).
Proof.
  revert t d. induction l as [| [n a] r IH]; intros t d; simpl; [reflexivity |].
  rewrite IH, dict_keys_set. reflexivity.
Qed.

Lemma untimed_result_of out ts :
  (status (result_of out ts), details (result_of out ts)) = verdict out.
Proof. destruct out as [e | [st d]]; reflexivity. Qed.

Lemma untimed_record_all l clk t d :
  untimed (record_all l clk t d) = record_verdicts l (untimed d).
Proof.
  revert t d. induction l as [| [n a] r IH]; intros t d; simpl; [reflexivity |].
  rewrite IH. f_equal. unfold untimed.
  rewrite (dict_set_map (fun r => (status r, details r))).
  rewrite untimed_result_of. reflexivity.
Qed.

Lemma record_verdicts_other l u name :
  ~ In name (map fst l) ->
  dict_get name (record_verdicts l u) = dict_get name u.
Proof.
  revert u. induction l as [| [n a] r IH]; intros u Hn; simpl; [reflexivity |].
  simpl in Hn. rewrite IH by tauto. apply dict_get_set_other. intro. subst. tauto.
Qed.

Lemma record_verdicts_get l u name attempt :
  NoDup (map fst l) -> In (name, attempt) l ->
  dict_get name (record_verdicts l u) = Some (verdict (outcome attempt)).
Proof.
  revert u. induction l as [| [n a] r IH]; intros u Hnd Hin; [contradiction |].
  simpl in *. inversion Hnd as [| ? ? Hn Hr]; subst.
  destruct Hin as [E | Hin].
  - injection E as -> ->.
    rewrite record_verdicts_other by assumption. apply dict_get_set_same.
  - apply IH; assumption.
Qed.

(** Recording verdicts that the report already holds changes nothing. *)
Lemma record_verdicts_fixed l u :
  (forall name attempt, In (name, attempt) l ->
                        dict_get name u = Some (verdict (outcome attempt))) ->
  record_verdicts l u = u.
Proof.
  induction l as [| [n a] r IH]; intro H; simpl; [reflexivity |].
  rewrite (dict_set_same n _ u) by (apply H; left; reflexivity).
  apply IH. intros name attempt Hin. apply H. right. assumption.
Qed.

Lemma record_verdicts_idem l u :
  NoDup (map fst l) ->
  record_verdicts l (record_verdicts l u) = record_verdicts l u.
Proof.
  intro Hnd. apply record_verdicts_fixed.
  intros name attempt Hin. apply record_verdicts_get; assumption.
Qed.

Lemma NoDup_attempts self : NoDup (map fst (attempts self)).
Proof.
  unfold attempts. destruct (configured _); simpl;
    repeat (constructor; [simpl; intuition discriminate |]); constructor.
Qed.

(** ** C1: a check that raises is recorded, and the others still run *)

(** C1.  [run_all_tests] never raises.  If the statements of a check raise
    an exception [e] (one that the check does not handle itself: in
    [values_range] a [ValueError] or [TypeError] met while profiling a column
    only skips that column), the report has for that check the status
    [Error] and the details [str(e)]; and every check of the run, the
    failed one and the others alike, has the entry of its own outcome. *)
Theorem check_errors_are_contained self w name attempt e :
  In (name, attempt) (attempts self) ->
  outcome attempt = inl e ->
  exists report self' w',
    run_all_tests self w = (inr (report, self'), w')
    /\ (exists ts, dict_get name report
                   = Some {| status := "Error"; timestamp := ts;
                             details := JStr (exn_msg e) |})
    /\ (forall name' attempt',
          In (name', attempt') (attempts self) ->
          exists ts, dict_get name' report
                     = Some (result_of (outcome attempt') ts)).
Proof.
  intros Hin Hout.
  destruct (run_all_tests_spec self w) as (self' & w' & E & Hr & _).
  exists (testing_results self'), self', w'. split; [exact E |].
  rewrite Hr. split.
  - destruct (record_all_get _ (clock w) (ticks w) (testing_results self)
                name attempt (NoDup_attempts self) Hin) as (ts & Hts).
    exists ts. rewrite Hts, Hout. reflexivity.
  - intros name' attempt' Hin'.
    apply record_all_get; [apply NoDup_attempts | assumption].
Qed.

Lemma check_errors_are_contained_witness :
  exists report self' w',
    run_all_tests (sales_checker ["order_id"] (Some "day")) blank
    = (inr (report, self'), w')
    /\ (exists ts, dict_get "find_duplicates" report
                   = Some {| status := "Error"; timestamp := ts;
                             details := JStr "Column 'order_id' does not exist" |})
    /\ (forall name' attempt',
          In (name', attempt') (attempts (sales_checker ["order_id"] (Some "day"))) ->
          exists ts, dict_get name' report
                     = Some (result_of (outcome attempt') ts)).
Proof.
  apply (check_errors_are_contained
           (sales_checker ["order_id"] (Some "day")) blank "find_duplicates"
           (find_duplicates_try (sales_checker ["order_id"] (Some "day")))
           (Exn AnalysisException "Column 'order_id' does not exist")).
  - left. reflexivity.
  - reflexivity.
Defined.

(** ** C2: one entry per check *)

Lemma init_inv spark cfg w self w' :
  __init__ spark cfg w = (inr self, w') ->
  exists df n,
    sql spark (_build_query (init_attrs cfg)) = inr df /\ count df = inr n /\ n <> 0
    /\ self = {| attrs := init_attrs cfg; table_df := df;
                 table_columns := columns df; table_count := n |}.
Proof.
  unfold __init__, _load_table_data, bind, lift, try_except, ask, raiseM, ret.
  fold (init_attrs cfg).
  destruct (_validate_inputs _ _ _) as [e | []]; [discriminate |].
  destruct (sql spark _) as [e | df] eqn:Esql; [discriminate |]. simpl.
  destruct (count df) as [e | n] eqn:Ecount; [discriminate |].
  destruct (n =? 0) eqn:En; [discriminate |]. simpl.
  intro H. injection H as <- _. exists df, n.
  apply Z.eqb_neq in En. auto.
Qed.

Lemma configured_iff (c : option string) :
  configured c = true <-> exists s, c = Some s /\ s <> "".
Proof.
  destruct c as [[| a s] |]; simpl; split; try discriminate.
  - intros (s & E & Hs). injection E as <-. contradiction.
  - intros _. eexists. split; [reflexivity | discriminate].
  - reflexivity.
  - intros (s & E & _). discriminate.
Qed.

(** C2.  For the object built from any configuration, the report of
    [run_all_tests] has exactly the keys [find_duplicates], [find_nulls],
    [check_completeness], [values_range], [key_density], each once and in
    this order, followed by [lud_density] exactly when a time column was
    configured ([lud_column] is a non-empty string). *)
Theorem report_has_one_entry_per_check spark cfg w0 self w1 :
  __init__ spark cfg w0 = (inr self, w1) ->
  exists report self' w2,
    run_all_tests self w1 = (inr (report, self'), w2)
    /\ dict_keys report
       = (check_names
          ++ (if configured (cfg_lud_column cfg) then ["lud_density"] else []))%list
    /\ NoDup (dict_keys report)
    /\ (In "lud_density" (dict_keys report)
        <-> exists c, cfg_lud_column cfg = Some c /\ c <> "").
Proof.
  intro Hinit.
  destruct (init_inv _ _ _ _ _ Hinit) as (df & n & _ & _ & _ & ->).
  match goal with |- context [run_all_tests ?s _] => set (self := s) end.
  destruct (run_all_tests_spec self w1) as (self' & w2 & E & Hr & _).
  exists (testing_results self'), self', w2. split; [exact E |].
  rewrite Hr, record_all_keys. unfold attempts.
  change (lud_column self) with (cfg_lud_column cfg).
  rewrite <- configured_iff.
  destruct (configured (cfg_lud_column cfg)); simpl.
  - split; [reflexivity |]. split.
    + repeat (constructor; [simpl; intuition discriminate |]); constructor.
    + intuition.
  - split; [reflexivity |]. split.
    + repeat (constructor; [simpl; intuition discriminate |]); constructor.
    + intuition discriminate.
Qed.

Lemma report_has_one_entry_per_check_witness :
  exists report self' w2,
    run_all_tests (sales_checker ["id"] (Some "day"))
      (logged blank [QSql "SELECT * FROM shop.sales"; QCount])
    = (inr (report, self'), w2)
    /\ dict_keys report = (check_names ++ ["lud_density"])%list
    /\ NoDup (dict_keys report)
    /\ (In "lud_density" (dict_keys report)
        <-> exists c, Some "day" = Some c /\ c <> "").
Proof.
  apply (report_has_one_entry_per_check sales_session
           (sales_config ["id"] (Some "day")) blank).
  reflexivity.
Defined.

(** ** C9: two runs over the same data *)

(** C9.  Two runs of the suite over the same object, whatever the clock
    shows, give reports with the same keys in the same order and, under each
    key, the same status and the same details; and so does a second run on
    the object that the first run left.  Only the timestamps differ. *)
Theorem runs_agree_up_to_timestamps self w1 w2 :
  exists r1 s1 w1' r2 s2 w2' r3 s3 w3',
    run_all_tests self w1 = (inr (r1, s1), w1')
    /\ run_all_tests self w2 = (inr (r2, s2), w2')
    /\ untimed r1 = untimed r2
    /\ run_all_tests s1 w1' = (inr (r3, s3), w3')
    /\ untimed r3 = untimed r1.
Proof.
  destruct (run_all_tests_spec self w1) as (s1 & w1' & E1 & H1 & A1 & _).
  destruct (run_all_tests_spec self w2) as (s2 & w2' & E2 & H2 & _).
  destruct (run_all_tests_spec s1 w1') as (s3 & w3' & E3 & H3 & _).
  exists (testing_results s1), s1, w1', (testing_results s2), s2, w2',
    (testing_results s3), s3, w3'.
  repeat split; try assumption.
  - rewrite H1, H2, !untimed_record_all. reflexivity.
  - rewrite H3, A1, untimed_record_all, H1, untimed_record_all.
    apply record_verdicts_idem, NoDup_attempts.
Qed.

(** ** C10: the load query reads one entry of [partition] *)

(** C10.  When [partition] has several entries, the query is built from the
    first alone: its column and its value or values make the [WHERE]
    clause, and the query is the one that the first entry by itself gives. *)
Theorem build_query_uses_first_partition_entry
    (self : Attributes) (key : string) (value : partition_value)
    (rest : dict partition_value) :
  _build_query (with_partition self (Some ((key, value) :: rest)))
  = _build_query (with_partition self (Some [(key, value)]))
  /\ _build_query (with_partition self (Some ((key, value) :: rest)))
     = ("SELECT * FROM " ++ table_schema self ++ "." ++ table_name self)
         ++ " WHERE " ++ key ++ " in (" ++ partition_text value ++ ")".
Proof.
  split; [reflexivity |]. unfold _build_query. simpl. destruct value; reflexivity.
Qed.

(** ** C4: what stops the construction *)

Lemma validate_inputs_spec cfg :
  (valid_types cfg = true ->
   _validate_inputs (cfg_table_schema cfg) (cfg_table_name cfg) (cfg_key_columns cfg)
   = inr tt)
  /\ (valid_types cfg = false ->
      exists msg,
        _validate_inputs (cfg_table_schema cfg) (cfg_table_name cfg)
          (cfg_key_columns cfg) = inl (Exn ValueError msg)).
Proof.
  unfold valid_types, _validate_inputs. simpl.
  destruct (isinstance_str (cfg_table_schema cfg)),
    (isinstance_str (cfg_table_name cfg)); simpl;
    try (split; [discriminate | intros _; eexists; reflexivity]).
  destruct (cfg_key_columns cfg) as [v | l]; simpl.
  - split; [discriminate | intros _; eexists; reflexivity].
  - destruct (forallb is_str l); simpl.
    + split; [reflexivity | discriminate].
    + split; [discriminate | intros _; eexists; reflexivity].
Qed.

(** C4, amended.  The run ends with a wrapped exception and without a
    report when the types of the configuration are invalid (before any
    query), when the load query fails, when the count of the loaded table
    fails, and when the table has no row; in each case no check has stored
    a result.  In every other case the run returns a report: the
    constructor looks neither at the length of the list of key columns nor
    at the columns of the table. *)
Theorem construction_aborts spark cfg w :
  (valid_types cfg = false ->
   exists msg, main spark cfg w = (inl (wrapped msg), w))
  /\ (valid_types cfg = true ->
      forall e, sql spark (_build_query (init_attrs cfg)) = inl e ->
      exists w', main spark cfg w
                 = (inl (wrapped ("Failed to query table: " ++ exn_msg e)), w')
                 /\ ticks w' = ticks w)
  /\ (valid_types cfg = true ->
      forall df e, sql spark (_build_query (init_attrs cfg)) = inr df ->
      count df = inl e ->
      exists w', main spark cfg w
                 = (inl (wrapped ("Failed to query table: " ++ exn_msg e)), w')
                 /\ ticks w' = ticks w)
  /\ (valid_types cfg = true ->
      forall df, sql spark (_build_query (init_attrs cfg)) = inr df ->
      count df = inr 0 ->
      exists w', main spark cfg w
                 = (inl (wrapped "Failed to query table: Table contains no data"), w')
                 /\ ticks w' = ticks w)
  /\ (valid_types cfg = true ->
      forall df n, sql spark (_build_query (init_attrs cfg)) = inr df ->
      count df = inr n -> n <> 0 ->
      exists report w', main spark cfg w = (inr report, w')).
Proof.
  destruct (validate_inputs_spec cfg) as [Hok Hbad].
  unfold main, __init__, _load_table_data, try_except, bind, lift, ask, raiseM.
  fold (init_attrs cfg).
  repeat split.
  - intro Hv. destruct (Hbad Hv) as (msg & ->). exists msg. reflexivity.
  - intros Hv e ->. rewrite (Hok Hv). simpl. eexists. split; reflexivity.
  - intros Hv df e -> ->. rewrite (Hok Hv). simpl. eexists. split; reflexivity.
  - intros Hv df -> ->. rewrite (Hok Hv). simpl. eexists. split; reflexivity.
  - intros Hv df n -> -> Hn. rewrite (Hok Hv). simpl.
    apply Z.eqb_neq in Hn. rewrite Hn. simpl.
    match goal with
    | |- context [run_all_tests ?s ?w0] =>
        destruct (run_all_tests_spec s w0) as (s' & w' & E & _); rewrite E
    end.
    eexists _, _. reflexivity.
Qed.

Lemma construction_aborts_witness :
  (exists msg, main sales_session keys_not_a_list blank = (inl (wrapped msg), blank))
  /\ (exists w', main lost_session (sales_config ["id"] None) blank
                 = (inl (wrapped "Failed to query table: Table or view not found"), w')
                 /\ ticks w' = 0%nat)
  /\ (exists w', main stalled_session (sales_config ["id"] None) blank
                 = (inl (wrapped "Failed to query table: Job aborted"), w')
                 /\ ticks w' = 0%nat)
  /\ (exists w', main (table_session "SELECT * FROM shop.sales" no_sales)
                   (sales_config ["id"] None) blank
                 = (inl (wrapped "Failed to query table: Table contains no data"), w')
                 /\ ticks w' = 0%nat)
  /\ (exists report w',
        main sales_session (sales_config ["id"] None) blank = (inr report, w')).
Proof.
  repeat apply conj.
  - apply (proj1 (construction_aborts sales_session keys_not_a_list blank)).
    reflexivity.
  - apply (proj1 (proj2 (construction_aborts lost_session
                           (sales_config ["id"] None) blank))
             eq_refl (Exn AnalysisException "Table or view not found")).
    reflexivity.
  - apply (proj1 (proj2 (proj2 (construction_aborts stalled_session
                                  (sales_config ["id"] None) blank)))
             eq_refl stalled_frame (Exn Py4JJavaError "Job aborted"));
      reflexivity.
  - apply (proj1 (proj2 (proj2 (proj2
             (construction_aborts (table_session "SELECT * FROM shop.sales" no_sales)
                (sales_config ["id"] None) blank))))
             eq_refl (table_frame no_sales)); reflexivity.
  - apply (proj2 (proj2 (proj2 (proj2
             (construction_aborts sales_session (sales_config ["id"] None) blank))))
             eq_refl (table_frame sales) 4); [reflexivity | reflexivity | discriminate].
Defined.

(** C4 as stated fails: a run with no key column, and a run with a key
    column that the table does not have, both return a report. *)
Lemma bad_keys_do_not_abort :
  (cfg_key_columns (sales_config [] None) = AList []
   /\ ~ aborts sales_session (sales_config [] None))
  /\ (~ In "order_id" (columns (table_frame sales))
      /\ ~ aborts sales_session (sales_config ["order_id"] None)).
Proof.
  split; split.
  - reflexivity.
  - intro H. destruct (H blank) as (e & w' & E). vm_compute in E. discriminate.
  - simpl. intuition discriminate.
  - intro H. destruct (H blank) as (e & w' & E). vm_compute in E. discriminate.
Qed.

(** ** C7: the profiling checks *)

Lemma outcome_try_except {A} (m : M A) (h : exn -> M A) :
  oblivious m -> (forall e, oblivious (h e)) ->
  outcome (try_except m h)
  = match outcome m with
    | inl e => outcome (h e)
    | inr a => inr a
    end.
Proof.
  intros Hm Hh. unfold outcome, try_except.
  destruct (m blank) as [[e | a] wb]; simpl; [| reflexivity].
  exact (proj1 (Hh e wb)).
Qed.

(** One turn of the loop of [values_range]. *)
Lemma values_range_loop_step df c rest d :
  outcome (values_range_loop df (c :: rest) d)
  = match select_stats_first df c with
    | inl e =>
        match exn_cls e with
        | ValueError | TypeError => outcome (values_range_loop df rest d)
        | _ => inl e
        end
    | inr stats =>
        match py_float (r_max stats) with
        | inr _ => outcome (values_range_loop df rest (dict_set c (range_entry stats) d))
        | inl e =>
            match exn_cls e with
            | ValueError | TypeError => outcome (values_range_loop df rest d)
            | _ => inl e
            end
        end
    end.
Proof.
  simpl. rewrite outcome_bind by auto 10 with oblivious.
  unfold try_except_value_type.
  rewrite outcome_try_except;
    [| auto 10 with oblivious
     | intro e; destruct (exn_cls e); auto with oblivious].
  rewrite outcome_bind by auto 10 with oblivious. rewrite outcome_ask.
  destruct (select_stats_first df c) as [e | stats]; simpl.
  - destruct (exn_cls e); reflexivity.
  - rewrite outcome_bind by auto with oblivious. rewrite outcome_lift.
    destruct (py_float (r_max stats)) as [e | f]; simpl.
    + destruct (exn_cls e); reflexivity.
    + reflexivity.
Qed.

Lemma dict_keys_set_In {V} c k (v : V) d :
  In c (dict_keys (dict_set k v d)) <-> c = k \/ In c (dict_keys d).
Proof.
  rewrite dict_keys_set. destruct (mem k (dict_keys d)) eqn:E.
  - apply mem_In in E. split; [tauto |]. intros [-> | H]; assumption.
  - rewrite in_app_iff. simpl. intuition congruence.
Qed.

Lemma dict_get_set {V} c k (v v' : V) d :
  dict_get c (dict_set k v d) = Some v' ->
  (c = k /\ v' = v) \/ (c <> k /\ dict_get c d = Some v').
Proof.
  destruct (string_dec c k) as [-> | Hne].
  - rewrite dict_get_set_same. intro H. injection H as <-. auto.
  - rewrite dict_get_set_other by assumption. auto.
Qed.

(** An entry of the details comes from a column whose maximum converts. *)
Lemma values_range_loop_sound df columns d0 d c v :
  outcome (values_range_loop df columns d0) = inr d ->
  dict_get c d = Some v ->
  dict_get c d0 = Some v
  \/ (In c columns /\
      exists stats f, select_stats_first df c = inr stats
                      /\ py_float (r_max stats) = inr f).
Proof.
  revert d0. induction columns as [| c0 rest IH]; intros d0 Hout Hget.
  - simpl in Hout. injection Hout as <-. auto.
  - rewrite values_range_loop_step in Hout.
    assert (Hskip : outcome (values_range_loop df rest d0) = inr d ->
                    dict_get c d0 = Some v
                    \/ (In c (c0 :: rest) /\
                        exists stats f, select_stats_first df c = inr stats
                                        /\ py_float (r_max stats) = inr f)).
    { intro H. destruct (IH d0 H Hget) as [H1 | [H1 H2]]; simpl; auto. }
    destruct (select_stats_first df c0) as [e | stats] eqn:Es.
    + destruct (exn_cls e); try discriminate; auto.
    + destruct (py_float (r_max stats)) as [e | f] eqn:Ef.
      * destruct (exn_cls e); try discriminate; auto.
      * destruct (IH _ Hout Hget) as [H1 | [H1 H2]]; [| simpl; auto].
        apply dict_get_set in H1. destruct H1 as [[-> _] | [_ H1]]; [| auto].
        right. split; [left; reflexivity |]. exists stats, f. auto.
Qed.

(** Columns whose maximum does not convert are passed over. *)
Lemma values_range_loop_skips df columns d0 :
  (forall c, In c columns ->
             exists stats, select_stats_first df c = inr stats
                           /\ forall e, py_float (r_max stats) = inl e ->
                                        value_or_type_error e) ->
  exists d,
    outcome (values_range_loop df columns d0) = inr d
    /\ forall c, In c (dict_keys d)
                 <-> In c (dict_keys d0)
                     \/ (In c columns /\
                         exists stats f, select_stats_first df c = inr stats
                                         /\ py_float (r_max stats) = inr f).
Proof.
  revert d0. induction columns as [| c0 rest IH]; intros d0 H.
  - exists d0. split; [reflexivity |]. intro c. simpl. intuition.
  - rewrite values_range_loop_step.
    destruct (H c0 (or_introl eq_refl)) as (stats & Es & Hf). rewrite Es.
    assert (Hrest : forall c, In c rest ->
                      exists stats, select_stats_first df c = inr stats
                                    /\ forall e, py_float (r_max stats) = inl e ->
                                                 value_or_type_error e).
    { intros c Hc. apply H. right. assumption. }
    destruct (py_float (r_max stats)) as [e | f] eqn:Ef.
    + destruct (IH d0 Hrest) as (d & Hd & Hk).
      exists d. split.
      * destruct (Hf e eq_refl) as [-> | ->]; assumption.
      * intro c. rewrite Hk. simpl. split; [tauto |].
        intros [H1 | [[<- | H1] H2]]; auto.
        destruct H2 as (stats' & f & Es' & Ef'). congruence.
    + destruct (IH (dict_set c0 (range_entry stats) d0) Hrest) as (d & Hd & Hk).
      exists d. split; [assumption |].
      intro c. rewrite Hk, dict_keys_set_In. simpl. split.
      * intros [[-> | H1] | [H1 H2]]; auto.
        right. split; [auto |]. exists stats, f. auto.
      * intros [H1 | [[<- | H1] H2]]; auto.
Qed.

(** What a method in guarded form leaves in the report. *)
Lemma method_entry name (meth : SparkDQTesting -> M SparkDQTesting) attempt self w :
  (forall w0, meth self w0 = guarded name attempt self w0) ->
  oblivious attempt ->
  exists self' w' ts,
    meth self w = (inr self', w')
    /\ dict_get name (testing_results self')
       = Some (result_of (outcome attempt) ts).
Proof.
  intros Hg Hob.
  destruct (guarded_run name attempt self w Hob) as (w' & E & _).
  eexists _, w', _. rewrite Hg. split; [exact E |].
  simpl. apply dict_get_set_same.
Qed.

(** The status that a check stores when its attempt can only say [Passed]. *)
Lemma passed_or_error out ts :
  (forall st d, out = inr (st, d) -> st = "Passed") ->
  (status (result_of out ts) = "Passed" /\ exists sd, out = inr sd)
  \/ (status (result_of out ts) = "Error"
      /\ exists e, out = inl e /\ details (result_of out ts) = JStr (exn_msg e)).
Proof.
  intro H. destruct out as [e | [st d]]; simpl.
  - right. split; [reflexivity |]. exists e. auto.
  - left. split; [apply (H st d eq_refl) |]. eexists. reflexivity.
Qed.

Lemma values_range_try_passed self st d :
  outcome (values_range_try self) = inr (st, d) -> st = "Passed".
Proof.
  unfold values_range_try. rewrite outcome_bind by auto with oblivious.
  destruct (outcome (values_range_loop _ _ _)); simpl; [discriminate |].
  intro H. injection H as <- _. reflexivity.
Qed.

Lemma key_density_try_passed self st d :
  outcome (key_density_try self) = inr (st, d) -> st = "Passed".
Proof.
  unfold key_density_try. rewrite outcome_bind by auto with oblivious.
  destruct (outcome (key_density_loop _ _ _)); simpl; [discriminate |].
  intro H. injection H as <- _. reflexivity.
Qed.

(** C7.  [values_range] and [key_density] never raise, and the result that
    each stores has the status [Passed] when its statements complete and
    [Error], with the message, when they raise: never [Failed].  An entry
    of the details of [values_range] belongs to a non-key column whose
    statistics were read and whose maximum [float()] accepts; and when, for
    every non-key column, the statistics are read and [float()] of the
    maximum returns or raises a [ValueError] or [TypeError], the check
    passes with exactly the columns that [float()] accepts. *)
Theorem profiling_checks_pass self w :
  (exists self' w' r,
     values_range self w = (inr self', w')
     /\ dict_get "values_range" (testing_results self') = Some r
     /\ ((status r = "Passed" /\ exists sd, outcome (values_range_try self) = inr sd)
         \/ (status r = "Error"
             /\ exists e, outcome (values_range_try self) = inl e
                          /\ details r = JStr (exn_msg e))))
  /\ (exists self' w' r,
        key_density self w = (inr self', w')
        /\ dict_get "key_density" (testing_results self') = Some r
        /\ ((status r = "Passed" /\ exists sd, outcome (key_density_try self) = inr sd)
            \/ (status r = "Error"
                /\ exists e, outcome (key_density_try self) = inl e
                             /\ details r = JStr (exn_msg e))))
  /\ (forall st rd c v,
        outcome (values_range_try self)
        = inr (st, JDict [("values_range_details", JDict rd)]) ->
        dict_get c rd = Some v ->
        In c (non_key_columns self)
        /\ exists stats f, select_stats_first (table_df self) c = inr stats
                           /\ py_float (r_max stats) = inr f)
  /\ ((forall c, In c (non_key_columns self) ->
                 exists stats, select_stats_first (table_df self) c = inr stats
                               /\ forall e, py_float (r_max stats) = inl e ->
                                            value_or_type_error e) ->
      exists rd,
        outcome (values_range_try self)
        = inr ("Passed", JDict [("values_range_details", JDict rd)])
        /\ forall c, In c (dict_keys rd)
                     <-> (In c (non_key_columns self)
                          /\ exists stats f,
                               select_stats_first (table_df self) c = inr stats
                               /\ py_float (r_max stats) = inr f)).
Proof.
  repeat apply conj.
  - destruct (method_entry "values_range" values_range (values_range_try self) self w
                (values_range_guarded self) (oblivious_values_range_try self))
      as (self' & w' & ts & E & Hget).
    exists self', w', (result_of (outcome (values_range_try self)) ts).
    split; [exact E |]. split; [exact Hget |].
    apply passed_or_error, values_range_try_passed.
  - destruct (method_entry "key_density" key_density (key_density_try self) self w
                (key_density_guarded self) (oblivious_key_density_try self))
      as (self' & w' & ts & E & Hget).
    exists self', w', (result_of (outcome (key_density_try self)) ts).
    split; [exact E |]. split; [exact Hget |].
    apply passed_or_error, key_density_try_passed.
  - intros st rd c v Hout Hget.
    unfold values_range_try in Hout.
    rewrite outcome_bind in Hout by auto with oblivious.
    destruct (outcome (values_range_loop _ _ _)) as [e | d] eqn:El;
      simpl in Hout; [discriminate |].
    injection Hout as _ <-.
    destruct (values_range_loop_sound _ _ _ _ _ _ El Hget) as [H | H];
      [discriminate | exact H].
  - intro H.
    destruct (values_range_loop_skips (table_df self) (non_key_columns self) [] H)
      as (d & Hd & Hk).
    exists d. split.
    + unfold values_range_try. rewrite outcome_bind by auto with oblivious.
      fold (non_key_columns self). rewrite Hd. reflexivity.
    + intro c. rewrite Hk. simpl. tauto.
Qed.

Lemma profiling_checks_pass_witness :
  (In "amount" (non_key_columns (sales_checker ["id"] None))
   /\ exists stats f,
        select_stats_first (table_df (sales_checker ["id"] None)) "amount" = inr stats
        /\ py_float (r_max stats) = inr f)
  /\ (exists rd,
        outcome (values_range_try (sales_checker ["id"] None))
        = inr ("Passed", JDict [("values_range_details", JDict rd)])
        /\ forall c, In c (dict_keys rd)
                     <-> (In c (non_key_columns (sales_checker ["id"] None))
                          /\ exists stats f,
                               select_stats_first
                                 (table_df (sales_checker ["id"] None)) c = inr stats
                               /\ py_float (r_max stats) = inr f)).
Proof.
  split.
  - apply (proj1 (proj2 (proj2 (profiling_checks_pass
                                  (sales_checker ["id"] None) blank)))
             "Passed"
             [("amount",
                JDict [("max", JStr "40"); ("min", JStr "10");
                       ("avg", JFloatStr (S754_finite false 7505999378950827 (-48)))])]
             "amount"
             (JDict [("max", JStr "40"); ("min", JStr "10");
                     ("avg", JFloatStr (S754_finite false 7505999378950827 (-48)))]));
      reflexivity.
  - apply (proj2 (proj2 (proj2 (profiling_checks_pass
                                  (sales_checker ["id"] None) blank)))).
    intros c Hc. vm_compute in Hc.
    destruct Hc as [<- | [<- | [<- | []]]];
      (eexists; split; [reflexivity |]);
      intros e He; vm_compute in He.
    + injection He as <-. left. reflexivity.
    + discriminate.
    + injection He as <-. left. reflexivity.
Defined.

(** ** C5: completeness of the non-key columns *)






Lemma set_difference_In a b c :
  In c (set_difference a b) <-> In c a /\ ~ In c b.
Proof.
  unfold set_difference. rewrite filter_In, nodup_In, negb_true_iff.
  split; intros [H1 H2]; (split; [assumption |]).
  - intro Hb. apply mem_In in Hb. congruence.
  - destruct (mem c b) eqn:E; [| reflexivity].
    apply mem_In in E. contradiction.
Qed.

(** *** Binary64: a twentieth *)









(** ** C3: the time column *)













(** The examples of the specification: six days of ten rows before a day
    of ten, of three and of four rows. *)
Lemma moving_average_examples :
  jget "below_acceptable_average" JNone
    (match moving_average (week 10) with inr ma => ma | inl _ => JNone end)
  = JBool false
  /\ jget "below_acceptable_average" JNone
       (match moving_average (week 3) with inr ma => ma | inl _ => JNone end)
     = JBool true
  /\ jget "below_acceptable_average" JNone
       (match moving_average (week 4) with inr ma => ma | inl _ => JNone end)
     = JBool false
  /\ ratio_to_average 10 (float_of_Z 10) = inr (VFloat (float_of_Z 1)).
Proof. vm_compute. repeat split. Qed.

(** ** Grouping *)

Section Grouping.

Context {K : Type} (eq_dec : forall a b : K, {a = b} + {a <> b}).











End Grouping.

Section Duplicates.

Context {K : Type} (eq_dec : forall a b : K, {a = b} + {a <> b}).



End Duplicates.

(** ** C6: duplicated key combinations *)



(** ** C8: nulls in the key columns *)









(** Two runs of [main] over the same session end alike: with the same
    exception, or with reports that differ in their timestamps only. *)
Lemma main_agrees_up_to_timestamps spark cfg w1 w2 :
  match fst (main spark cfg w1), fst (main spark cfg w2) with
  | inr r1, inr r2 => untimed r1 = untimed r2
  | inl e1, inl e2 => e1 = e2
  | _, _ => False
  end.
Proof.
  assert (Hob : oblivious (__init__ spark cfg)).
  { unfold __init__, _load_table_data. apply oblivious_bind; [auto with oblivious |].
    intros _. apply oblivious_try_except.
    - apply oblivious_bind; [auto with oblivious |]. intro df.
      apply oblivious_bind; [auto with oblivious |]. intro n.
      destruct (n =? 0); unfold raiseM; auto with oblivious.
    - intro e. unfold raiseM. auto with oblivious. }
  unfold main, try_except, bind.
  destruct (Hob w1) as (H1 & _), (Hob w2) as (H2 & _).
  destruct (__init__ spark cfg w1) as [[e1 | s1] w1'],
    (__init__ spark cfg w2) as [[e2 | s2] w2']; simpl in H1, H2;
    try congruence.
  assert (s1 = s2) by congruence. subst.
  destruct (run_all_tests_spec s2 w1') as (a1 & v1 & E1 & R1 & _).
  destruct (run_all_tests_spec s2 w2') as (a2 & v2 & E2 & R2 & _).
  rewrite E1, E2. simpl. rewrite R1, R2, !untimed_record_all. reflexivity.
Qed.

(** ** Runs over the sample table *)

(** With a key column that the table does not have, the checks that query
    it report [Error] and the others report as usual. *)
Example run_with_absent_key_column :
  match fst (main sales_session (sales_config ["order_id"] None) blank) with
  | inr report => map (fun kv => (fst kv, status (snd kv))) report
  | inl _ => []
  end
  = [("find_duplicates", "Error"); ("find_nulls", "Error");
     ("check_completeness", "Failed"); ("values_range", "Passed");
     ("key_density", "Error")].
Proof. vm_compute. reflexivity. Qed.

(** With no key column, the table is one group for [find_duplicates]. *)
Example run_without_key_column :
  match fst (main sales_session (sales_config [] None) blank) with
  | inr report => map (fun kv => (fst kv, status (snd kv))) report
  | inl _ => []
  end
  = [("find_duplicates", "Failed"); ("find_nulls", "Passed");
     ("check_completeness", "Failed"); ("values_range", "Passed");
     ("key_density", "Passed")].
Proof. vm_compute. reflexivity. Qed.

(** The percentage is a binary64 number: for 29 nulls among 100 rows it is
    just below 29, and its integer part is 28. *)
Example twenty_nine_in_a_hundred :
  res_bind (null_percentage 29 100) float_to_int = inr 28.
Proof. vm_compute. reflexivity. Qed.

(** * Further properties *)

(** ** The run as a whole *)

(** The run over an object: what it leaves and how far the clock moves. *)
Lemma run_methods_frame self w :
  exists (self' : SparkDQTesting) w',
    run_methods test_methods self w = (inr self', w')
    /\ self' = replace_results self
                 (record_all (attempts self) (clock w) (ticks w)
                    (testing_results self))
    /\ clock w' = clock w
    /\ ticks w' = (ticks w + List.length (attempts self))%nat.
Proof.
  unfold test_methods.
  step_method find_duplicates_guarded oblivious_find_duplicates_try.
  step_method find_nulls_guarded oblivious_find_nulls_try.
  step_method check_completeness_guarded oblivious_check_completeness_try.
  step_method values_range_guarded oblivious_values_range_try.
  step_method key_density_guarded oblivious_key_density_try.
  simpl run_methods. unfold bind at 1. rewrite lud_density_guarded. unfold attempts.
  change (lud_column (set_result _ _ _)) with (lud_column self).
  destruct (configured (lud_column self)) eqn:Hcfg.
  - match goal with
    | |- context [guarded _ _ ?s ?w] =>
        destruct (guarded_run "lud_density" _ s w (oblivious_lud_density_try s))
          as (w' & E & Hc' & Ht' & _); rewrite E
    end.
    rewrite Hc in *. rewrite Ht in *.
    eexists _, _. split; [reflexivity |]. split; [reflexivity |].
    split; [assumption |]. rewrite Ht'. simpl. lia.
  - eexists _, _. split; [reflexivity |]. split; [reflexivity |].
    split; [assumption |]. rewrite Ht. simpl. lia.
Qed.

Lemma record_all_keeps_keys l clk t d k :
  In k (dict_keys d) -> In k (dict_keys (record_all l clk t d)).
Proof.
  revert t d. induction l as [| [n a] r IH]; intros t d H; simpl; [exact H |].
  apply IH. apply dict_keys_set_In. right. exact H.
Qed.

Lemma record_all_nth l clk t d i name attempt :
  NoDup (map fst l) -> nth_error l i = Some (name, attempt) ->
  dict_get name (record_all l clk t d)
  = Some (result_of (outcome attempt) (clk (t + i)%nat)).
Proof.
  revert t d i. induction l as [| [n a] r IH]; intros t d i Hnd Hnth.
  - destruct i; discriminate.
  - simpl in Hnd. inversion Hnd as [| ? ? Hn Hr]; subst.
    destruct i as [| i]; simpl in Hnth.
    + injection Hnth as -> ->. simpl.
      rewrite record_all_other by assumption.
      rewrite dict_get_set_same, Nat.add_0_r. reflexivity.
    + simpl. rewrite (IH (S t) _ i Hr Hnth).
      replace (S t + i)%nat with (t + S i)%nat by lia. reflexivity.
Qed.

(** X1.  A run changes nothing of the object but its report, and of the
    report only the entries of the checks that ran: an entry under any other
    key is kept as it was, and no key is removed. *)
Theorem run_only_writes_its_entries self w :
  exists report self' w',
    run_all_tests self w = (inr (report, self'), w')
    /\ self' = replace_results self report
    /\ (forall k, ~ In k (map fst (attempts self)) ->
                  dict_get k report = dict_get k (testing_results self))
    /\ (forall k, In k (dict_keys (testing_results self)) ->
                  In k (dict_keys report)).
Proof.
  destruct (run_methods_frame self w) as (self' & w' & E & Hs & _).
  exists (testing_results self'), self', w'.
  split; [unfold run_all_tests, bind; rewrite E; reflexivity |].
  rewrite Hs. cbn [testing_results attrs replace_results].
  split; [reflexivity |]. split.
  - intros k Hk. apply record_all_other. exact Hk.
  - intros k Hk. apply record_all_keeps_keys. exact Hk.
Qed.

Lemma run_only_writes_its_entries_witness :
  exists report self' w',
    run_all_tests
      (replace_results (sales_checker ["id"] None)
         [("lud_density", {| status := "Passed"; timestamp := "earlier";
                             details := JNone |})]) blank
    = (inr (report, self'), w')
    /\ dict_get "lud_density" report
       = Some {| status := "Passed"; timestamp := "earlier"; details := JNone |}
    /\ In "lud_density" (dict_keys report).
Proof.
  destruct (run_only_writes_its_entries
              (replace_results (sales_checker ["id"] None)
                 [("lud_density", {| status := "Passed"; timestamp := "earlier";
                                     details := JNone |})]) blank)
    as (report & self' & w' & E & _ & Hkeep & Hkeys).
  exists report, self', w'. split; [exact E |]. split.
  - apply (Hkeep "lud_density"). simpl. intuition discriminate.
  - apply Hkeys. left. reflexivity.
Defined.

(** X2.  Each check of a run takes one reading of the clock, in the order
    of the run: the entry of the check at place [i] carries the reading
    number [i] after those taken before the run, and the run takes as many
    readings as it has checks. *)
Theorem run_timestamps_follow_order self w i name attempt :
  nth_error (attempts self) i = Some (name, attempt) ->
  exists report self' w' r,
    run_all_tests self w = (inr (report, self'), w')
    /\ dict_get name report = Some r
    /\ timestamp r = clock w (ticks w + i)%nat
    /\ ticks w' = (ticks w + List.length (attempts self))%nat.
Proof.
  intro Hnth.
  destruct (run_methods_frame self w) as (self' & w' & E & Hs & _ & Ht).
  exists (testing_results self'), self', w',
    (result_of (outcome attempt) (clock w (ticks w + i)%nat)).
  split; [unfold run_all_tests, bind; rewrite E; reflexivity |].
  rewrite Hs. cbn [testing_results attrs replace_results].
  split; [apply record_all_nth; [apply NoDup_attempts | exact Hnth] |].
  split; [destruct (outcome attempt) as [e | [st d]]; reflexivity | exact Ht].
Qed.

Lemma run_timestamps_follow_order_witness :
  exists report self' w' r,
    run_all_tests (sales_checker ["id"] (Some "day")) blank
    = (inr (report, self'), w')
    /\ dict_get "values_range" report = Some r
    /\ timestamp r = clock blank (ticks blank + 3)%nat
    /\ ticks w' = (ticks blank
                   + List.length (attempts (sales_checker ["id"] (Some "day"))))%nat.
Proof.
  apply (run_timestamps_follow_order (sales_checker ["id"] (Some "day")) blank 3
           "values_range" (values_range_try (sales_checker ["id"] (Some "day")))).
  reflexivity.
Defined.

(** ** Construction *)

Lemma validate_inputs_valid cfg :
  _validate_inputs (cfg_table_schema cfg) (cfg_table_name cfg) (cfg_key_columns cfg)
  = inr tt ->
  valid_types cfg = true.
Proof.
  intro H. destruct (valid_types cfg) eqn:E; [reflexivity |].
  destruct (proj2 (validate_inputs_spec cfg) E) as (msg & Hmsg). congruence.
Qed.

Lemma int_truediv_nonzero a b msg :
  b <> 0 -> int_truediv a b <> inl (Exn ZeroDivisionError msg).
Proof.
  intro Hb. unfold int_truediv.
  destruct a, b; try contradiction; try discriminate;
    destruct (is_infinite _); discriminate.
Qed.

(** X3.  An object that [__init__] returns holds the configuration as it
    was given, an empty report, the frame that the load query returned, the
    columns of that frame and its count, which is not zero; building it
    sent the load query and the count, in this order, and did not read the
    clock.  On such an object the percentage of [check_completeness] never
    divides by zero. *)
Theorem constructed_object_invariants spark cfg w self w' :
  __init__ spark cfg w = (inr self, w') ->
  valid_types cfg = true
  /\ attrs self = init_attrs cfg
  /\ testing_results self = []
  /\ sql spark (_build_query (init_attrs cfg)) = inr (table_df self)
  /\ table_columns self = columns (table_df self)
  /\ count (table_df self) = inr (table_count self)
  /\ table_count self <> 0
  /\ issued w' = (issued w ++ [QSql (_build_query (init_attrs cfg)); QCount])%list
  /\ clock w' = clock w /\ ticks w' = ticks w
  /\ forall n msg,
       null_percentage n (table_count self) <> inl (Exn ZeroDivisionError msg).
Proof.
  unfold __init__, _load_table_data, bind, lift, try_except, ask, raiseM, ret.
  fold (init_attrs cfg).
  destruct (_validate_inputs _ _ _) as [e | []] eqn:Ev; [discriminate |].
  destruct (sql spark _) as [e | df] eqn:Esql; [discriminate |]. simpl.
  destruct (count df) as [e | n] eqn:Ecount; [discriminate |].
  destruct (n =? 0) eqn:En; [discriminate |]. simpl.
  intro H. injection H as <- <-. simpl. apply Z.eqb_neq in En.
  repeat split; try assumption; try reflexivity.
  - apply validate_inputs_valid. exact Ev.
  - rewrite <- app_assoc. reflexivity.
  - intros k msg. unfold null_percentage.
    pose proof (int_truediv_nonzero k n msg En) as Hz.
    destruct (int_truediv k n) as [e | q]; simpl; [| discriminate].
    exact Hz.
Qed.

Lemma constructed_object_invariants_witness :
  valid_types (sales_config ["id"] (Some "day")) = true
  /\ attrs (sales_checker ["id"] (Some "day"))
     = init_attrs (sales_config ["id"] (Some "day"))
  /\ testing_results (sales_checker ["id"] (Some "day")) = []
  /\ sql sales_session (_build_query (init_attrs (sales_config ["id"] (Some "day"))))
     = inr (table_df (sales_checker ["id"] (Some "day")))
  /\ table_columns (sales_checker ["id"] (Some "day"))
     = columns (table_df (sales_checker ["id"] (Some "day")))
  /\ count (table_df (sales_checker ["id"] (Some "day")))
     = inr (table_count (sales_checker ["id"] (Some "day")))
  /\ table_count (sales_checker ["id"] (Some "day")) <> 0
  /\ issued (logged blank [QSql "SELECT * FROM shop.sales"; QCount])
     = (issued blank
        ++ [QSql (_build_query (init_attrs (sales_config ["id"] (Some "day"))));
            QCount])%list
  /\ clock (logged blank [QSql "SELECT * FROM shop.sales"; QCount]) = clock blank
  /\ ticks (logged blank [QSql "SELECT * FROM shop.sales"; QCount]) = ticks blank
  /\ forall n msg,
       null_percentage n (table_count (sales_checker ["id"] (Some "day")))
       <> inl (Exn ZeroDivisionError msg).
Proof.
  apply (constructed_object_invariants sales_session
           (sales_config ["id"] (Some "day")) blank).
  reflexivity.
Defined.

(** X4.  [__init__] raises two kinds of exception only.  A [ValueError]
    comes from the validation, when the types of the configuration are
    invalid, before anything is sent to Spark.  Whatever the load raises,
    of whatever class, reaches the caller as a [RuntimeError] whose message
    is [Failed to query table: ] followed by the message of the cause,
    which is the exception of the session, the exception of the count, or
    the complaint that the table contains no data. *)
Theorem init_raises_value_or_runtime_error spark cfg w e w' :
  __init__ spark cfg w = (inl e, w') ->
  (exn_cls e = ValueError /\ valid_types cfg = false /\ w' = w)
  \/ (exn_cls e = RuntimeError /\ valid_types cfg = true
      /\ exists cause,
           exn_msg e = "Failed to query table: " ++ cause
           /\ ((exists c, sql spark (_build_query (init_attrs cfg)) = inl c
                          /\ cause = exn_msg c)
               \/ (exists df c, sql spark (_build_query (init_attrs cfg)) = inr df
                                /\ count df = inl c /\ cause = exn_msg c)
               \/ (exists df, sql spark (_build_query (init_attrs cfg)) = inr df
                              /\ count df = inr 0
                              /\ cause = "Table contains no data"))).
Proof.
  unfold __init__, _load_table_data, bind, lift, try_except, ask, raiseM, ret.
  fold (init_attrs cfg).
  destruct (_validate_inputs _ _ _) as [ev | []] eqn:Ev.
  - intro H. injection H as <- <-. left.
    destruct (valid_types cfg) eqn:Evalid.
    + rewrite (proj1 (validate_inputs_spec cfg) Evalid) in Ev. discriminate.
    + destruct (proj2 (validate_inputs_spec cfg) Evalid) as (msg & Hmsg).
      rewrite Hmsg in Ev. injection Ev as <-. auto.
  - apply validate_inputs_valid in Ev.
    destruct (sql spark _) as [c | df] eqn:Esql; simpl.
    + intro H. injection H as <- _. right. repeat split; try assumption.
      exists (exn_msg c). split; [reflexivity |]. left. exists c. auto.
    + destruct (count df) as [c | n] eqn:Ecount; simpl.
      * intro H. injection H as <- _. right. repeat split; try assumption.
        exists (exn_msg c). split; [reflexivity |]. right. left. exists df, c. auto.
      * destruct (n =? 0) eqn:En; simpl; [| discriminate].
        apply Z.eqb_eq in En. subst n.
        intro H. injection H as <- _. right. repeat split; try assumption.
        exists "Table contains no data". split; [reflexivity |].
        right. right. exists df. auto.
Qed.

Lemma init_raises_value_or_runtime_error_witness :
  (exn_cls (Exn RuntimeError "Failed to query table: Job aborted") = ValueError
   /\ valid_types (sales_config ["id"] None) = false
   /\ logged blank [QSql "SELECT * FROM shop.sales"; QCount] = blank)
  \/ (exn_cls (Exn RuntimeError "Failed to query table: Job aborted") = RuntimeError
      /\ valid_types (sales_config ["id"] None) = true
      /\ exists cause,
           exn_msg (Exn RuntimeError "Failed to query table: Job aborted")
           = "Failed to query table: " ++ cause
           /\ ((exists c, sql stalled_session
                            (_build_query (init_attrs (sales_config ["id"] None)))
                          = inl c /\ cause = exn_msg c)
               \/ (exists df c, sql stalled_session
                                  (_build_query (init_attrs (sales_config ["id"] None)))
                                = inr df
                                /\ count df = inl c /\ cause = exn_msg c)
               \/ (exists df, sql stalled_session
                                (_build_query (init_attrs (sales_config ["id"] None)))
                              = inr df
                              /\ count df = inr 0
                              /\ cause = "Table contains no data"))).
Proof.
  apply (init_raises_value_or_runtime_error stalled_session
           (sales_config ["id"] None) blank).
  reflexivity.
Defined.

(** ** The loops over the columns *)

Lemma logged_logged w a b : logged (logged w a) b = logged w (a ++ b).
Proof. unfold logged. simpl. rewrite app_assoc. reflexivity. Qed.

Lemma logged_nil w : issued (logged w []) = issued w.
Proof. simpl. apply app_nil_r. Qed.

Lemma mem_app c a b : mem c (a ++ b) = mem c a || mem c b.
Proof. unfold mem. apply existsb_app. Qed.

Lemma filter_filter_implied {A} (p q : A -> bool) l :
  (forall x, p x = true -> q x = true) -> filter p (filter q l) = filter p l.
Proof.
  intro H. induction l as [| x r IH]; simpl; [reflexivity |].
  destruct (q x) eqn:Eq; simpl.
  - rewrite IH. reflexivity.
  - destruct (p x) eqn:Ep; [| exact IH].
    rewrite (H x Ep) in Eq. discriminate.
Qed.


Lemma filter_filter_and {A} (p q : A -> bool) l :
  filter p (filter q l) = filter (fun x => q x && p x) l.
Proof.
  induction l as [| x r IH]; simpl; [reflexivity |].
  destruct (q x); simpl; [| exact IH].
  destruct (p x); rewrite IH; reflexivity.
Qed.


Lemma ask_run {A} (q : query) (r : res A) w : ask q r w = (r, logged w [q]).
Proof. reflexivity. Qed.


Lemma null_counts_fail df pre c post e acc w :
  (forall x, In x pre -> exists k, where_isNull_count df x = inr k) ->
  where_isNull_count df c = inl e ->
  null_counts df (pre ++ c :: post) acc w
  = (inl e, logged w (map QNullCount (pre ++ [c]))).
Proof.
  intros Hpre Hc. revert acc w.
  induction pre as [| x r IH]; intros acc w; simpl.
  - unfold bind. rewrite ask_run, Hc. reflexivity.
  - destruct (Hpre x (or_introl eq_refl)) as (k & Hk).
    unfold bind. rewrite ask_run, Hk.
    rewrite IH by (intros y Hy; apply Hpre; right; exact Hy).
    rewrite logged_logged. reflexivity.
Qed.



(** X6.  [find_nulls] gives up at the first key column whose query raises:
    the counts read so far are dropped, the columns after it are not
    queried, and the entry of the check is [Error] with the message of that
    exception. *)
Theorem find_nulls_stops_at_first_failure (self : SparkDQTesting) pre c post e w :
  key_columns self = (pre ++ c :: post)%list ->
  (forall x, In x pre -> exists k, where_isNull_count (table_df self) x = inr k) ->
  where_isNull_count (table_df self) c = inl e ->
  exists self' w' r,
    find_nulls self w = (inr self', w')
    /\ dict_get "find_nulls" (testing_results self') = Some r
    /\ status r = "Error" /\ details r = JStr (exn_msg e)
    /\ issued w' = (issued w ++ map QNullCount (pre ++ [c]))%list.
Proof.
  intros Hkeys Hpre Hc.
  assert (Hrun : forall w0, find_nulls_try self w0
                            = (inl e, logged w0 (map QNullCount (pre ++ [c])))).
  { intro w0. unfold find_nulls_try, bind. rewrite Hkeys.
    rewrite (null_counts_fail _ pre c post e) by assumption. reflexivity. }
  destruct (guarded_run "find_nulls" (find_nulls_try self) self w
              (oblivious_find_nulls_try self)) as (w' & E & _ & _ & Hi).
  rewrite Hrun in Hi. unfold outcome in E. rewrite Hrun in E. simpl in E.
  eexists _, w', _. rewrite find_nulls_guarded. split; [exact E |].
  split; [simpl; apply dict_get_set_same |].
  repeat split. exact Hi.
Qed.

Lemma find_nulls_stops_at_first_failure_witness :
  exists self' w' r,
    find_nulls (sales_checker ["id"; "order_id"; "amount"] None) blank = (inr self', w')
    /\ dict_get "find_nulls" (testing_results self') = Some r
    /\ status r = "Error"
    /\ details r = JStr "Column 'order_id' does not exist"
    /\ issued w' = (issued blank ++ map QNullCount (["id"] ++ ["order_id"]))%list.
Proof.
  apply (find_nulls_stops_at_first_failure
           (sales_checker ["id"; "order_id"; "amount"] None)
           ["id"] "order_id" ["amount"]
           (Exn AnalysisException "Column 'order_id' does not exist") blank).
  - reflexivity.
  - intros x [<- | []]. eexists. reflexivity.
  - reflexivity.
Defined.

Lemma completeness_loop_fail df tc pre c post e d st w :
  (forall x, In x pre ->
             exists k p i, where_isNull_count df x = inr k
                           /\ null_percentage k tc = inr p
                           /\ float_to_int p = inr i) ->
  where_isNull_count df c = inl e ->
  completeness_loop df tc (pre ++ c :: post) d st w
  = (inl e, logged w (map QNullCount (pre ++ [c]))).
Proof.
  intros Hpre Hc. revert d st w.
  induction pre as [| x r IH]; intros d st w; simpl.
  - unfold bind. rewrite ask_run, Hc. reflexivity.
  - destruct (Hpre x (or_introl eq_refl)) as (k & p & i & Hk & Hp & Hi).
    unfold bind, lift. rewrite ask_run, Hk, Hp, Hi.
    rewrite IH by (intros y Hy; apply Hpre; right; exact Hy).
    rewrite logged_logged. reflexivity.
Qed.

(** X7.  [check_completeness] gives up at the first non-key column whose
    null count cannot be read: the percentages found so far are dropped,
    the columns after it are not queried, and the entry of the check is
    [Error] with the message of that exception. *)
Theorem check_completeness_stops_at_first_failure (self : SparkDQTesting)
    pre c post e w :
  non_key_columns self = (pre ++ c :: post)%list ->
  (forall x, In x pre ->
             exists k p i, where_isNull_count (table_df self) x = inr k
                           /\ null_percentage k (table_count self) = inr p
                           /\ float_to_int p = inr i) ->
  where_isNull_count (table_df self) c = inl e ->
  exists self' w' r,
    check_completeness self w = (inr self', w')
    /\ dict_get "check_completeness" (testing_results self') = Some r
    /\ status r = "Error" /\ details r = JStr (exn_msg e)
    /\ issued w' = (issued w ++ map QNullCount (pre ++ [c]))%list.
Proof.
  intros Hnk Hpre Hc.
  assert (Hrun : forall w0, check_completeness_try self w0
                            = (inl e, logged w0 (map QNullCount (pre ++ [c])))).
  { intro w0. unfold check_completeness_try. fold (non_key_columns self).
    destruct (non_key_columns self) as [| c0 rest] eqn:E.
    - destruct pre; discriminate.
    - rewrite Hnk. unfold bind.
      rewrite (completeness_loop_fail _ _ pre c post e) by assumption.
      reflexivity. }
  destruct (guarded_run "check_completeness" (check_completeness_try self) self w
              (oblivious_check_completeness_try self)) as (w' & E & _ & _ & Hi).
  rewrite Hrun in Hi. unfold outcome in E. rewrite Hrun in E. simpl in E.
  eexists _, w', _. rewrite check_completeness_guarded. split; [exact E |].
  split; [simpl; apply dict_get_set_same |].
  repeat split. exact Hi.
Qed.

Lemma check_completeness_stops_at_first_failure_witness :
  exists self' w' r,
    check_completeness
      {| attrs := init_attrs (sales_config ["id"] None);
         table_df := table_frame sales;
         table_columns := ["id"; "amount"; "price"; "note"];
         table_count := 4 |} blank
    = (inr self', w')
    /\ dict_get "check_completeness" (testing_results self') = Some r
    /\ status r = "Error"
    /\ details r = JStr "Column 'price' does not exist"
    /\ issued w' = (issued blank ++ map QNullCount (["amount"] ++ ["price"]))%list.
Proof.
  apply (check_completeness_stops_at_first_failure
           {| attrs := init_attrs (sales_config ["id"] None);
              table_df := table_frame sales;
              table_columns := ["id"; "amount"; "price"; "note"];
              table_count := 4 |}
           ["amount"] "price" ["note"]
           (Exn AnalysisException "Column 'price' does not exist") blank).
  - reflexivity.
  - intros x [<- | []]. eexists _, _, _. repeat split.
  - reflexivity.
Defined.




(** One turn of the loop of [key_density]. *)
Lemma key_density_loop_step df c rest d :
  outcome (key_density_loop df (c :: rest) d)
  = res_bind (key_density_column df c)
      (fun entry => outcome (key_density_loop df rest (dict_set c entry d))).
Proof.
  simpl. unfold key_density_column.
  rewrite outcome_bind by auto 12 with oblivious. rewrite outcome_ask.
  destruct (groupBy_count df c) as [e | vc]; cbn [res_bind]; [reflexivity |].
  rewrite outcome_bind by auto 12 with oblivious. rewrite outcome_ask.
  destruct (agg_first vc) as [e | stats]; cbn [res_bind]; [reflexivity |].
  rewrite outcome_bind by auto 12 with oblivious. rewrite outcome_ask.
  destruct (where_count_first vc (max_count stats)) as [e | mx]; cbn [res_bind];
    [reflexivity |].
  rewrite outcome_bind by auto 12 with oblivious. rewrite outcome_ask.
  destruct (where_count_first vc (min_count stats)) as [e | mn]; cbn [res_bind];
    [reflexivity |].
  rewrite outcome_bind by auto 12 with oblivious. rewrite outcome_ask.
  destruct (count df) as [e | total]; reflexivity.
Qed.

Lemma key_density_loop_keys df columns d d' :
  outcome (key_density_loop df columns d) = inr d' ->
  dict_keys d'
  = fold_left (fun ks c => if mem c ks then ks else (ks ++ [c])%list)
      columns (dict_keys d).
Proof.
  revert d. induction columns as [| c rest IH]; intros d H.
  - simpl in H. injection H as <-. reflexivity.
  - rewrite key_density_loop_step in H.
    destruct (key_density_column df c) as [e | entry]; [discriminate |].
    cbn [res_bind] in H. rewrite (IH _ H), dict_keys_set. reflexivity.
Qed.

Lemma fold_add_key_distinct l ks :
  fold_left (fun ks c => if mem c ks then ks else (ks ++ [c])%list) l ks
  = (ks ++ filter (fun x => negb (mem x ks)) (distinct l))%list.
Proof.
  revert ks. induction l as [| c r IH]; intro ks; simpl.
  - rewrite app_nil_r. reflexivity.
  - destruct (mem c ks) eqn:Ec; simpl.
    + rewrite IH. f_equal. symmetry. apply filter_filter_implied.
      intros x Hx. apply negb_true_iff. apply negb_true_iff in Hx.
      destruct (String.eqb x c) eqn:E; [| reflexivity].
      apply String.eqb_eq in E. subst. congruence.
    + rewrite IH, <- app_assoc. simpl. do 2 f_equal.
      rewrite filter_filter_and. apply filter_ext. intro x.
      rewrite mem_app. unfold mem at 2. simpl.
      destruct (mem x ks), (String.eqb x c); reflexivity.
Qed.

Lemma key_density_loop_fail df pre c post e d :
  (forall x, In x pre -> exists entry, key_density_column df x = inr entry) ->
  key_density_column df c = inl e ->
  outcome (key_density_loop df (pre ++ c :: post) d) = inl e.
Proof.
  intros Hpre Hc. revert d. induction pre as [| x r IH]; intro d.
  - simpl app. rewrite key_density_loop_step, Hc. reflexivity.
  - change ((x :: r) ++ c :: post)%list with (x :: (r ++ c :: post))%list.
    rewrite key_density_loop_step.
    destruct (Hpre x (or_introl eq_refl)) as (entry & ->). cbn [res_bind].
    apply IH. intros y Hy. apply Hpre. right. exact Hy.
Qed.

(** X9.  When [key_density] completes, its details have one entry for each
    distinct key column, in the order of first occurrence.  When one of the
    five queries of a key column raises and the columns before it were
    profiled, the check ends with that exception: the entries built so far
    are dropped, and the stored result is [Error] with its message. *)
Theorem key_density_all_or_nothing (self : SparkDQTesting) :
  (forall st kd,
     outcome (key_density_try self)
     = inr (st, JDict [("key_density_details", JDict kd)]) ->
     dict_keys kd = distinct (key_columns self))
  /\ (forall pre c post e w,
        key_columns self = (pre ++ c :: post)%list ->
        (forall x, In x pre ->
                   exists entry, key_density_column (table_df self) x = inr entry) ->
        key_density_column (table_df self) c = inl e ->
        exists self' w' r,
          key_density self w = (inr self', w')
          /\ dict_get "key_density" (testing_results self') = Some r
          /\ status r = "Error" /\ details r = JStr (exn_msg e)).
Proof.
  split.
  - intros st kd H. unfold key_density_try in H.
    rewrite outcome_bind in H by auto with oblivious.
    destruct (outcome (key_density_loop _ _ _)) as [e | d] eqn:El;
      cbn [res_bind] in H; [discriminate |].
    rewrite outcome_ret in H. injection H as _ <-.
    rewrite (key_density_loop_keys _ _ _ _ El), fold_add_key_distinct. simpl.
    clear. induction (distinct (key_columns self)) as [| x r IH]; simpl;
      [| rewrite IH]; reflexivity.
  - intros pre c post e w Hkeys Hpre Hc.
    assert (Hout : outcome (key_density_try self) = inl e).
    { unfold key_density_try. rewrite outcome_bind by auto with oblivious.
      rewrite Hkeys, (key_density_loop_fail _ pre c post e) by assumption.
      reflexivity. }
    destruct (method_entry "key_density" key_density (key_density_try self) self w
                (key_density_guarded self) (oblivious_key_density_try self))
      as (self' & w' & ts & E & Hget).
    rewrite Hout in Hget. eexists self', w', _. split; [exact E |].
    split; [exact Hget |]. split; reflexivity.
Qed.

Lemma key_density_all_or_nothing_witness :
  (exists kd,
     outcome (key_density_try (sales_checker ["id"; "day"; "id"] None))
     = inr ("Passed", JDict [("key_density_details", JDict kd)])
     /\ dict_keys kd = ["id"; "day"])
  /\ exists self' w' r,
       key_density (sales_checker ["id"; "order_id"; "day"] None) blank
       = (inr self', w')
       /\ dict_get "key_density" (testing_results self') = Some r
       /\ status r = "Error"
       /\ details r = JStr "Column 'order_id' does not exist".
Proof.
  split.
  - eexists. split; [reflexivity |].
    apply (proj1 (key_density_all_or_nothing
                    (sales_checker ["id"; "day"; "id"] None)) "Passed").
    reflexivity.
  - apply (proj2 (key_density_all_or_nothing
                    (sales_checker ["id"; "order_id"; "day"] None))
             ["id"] "order_id" ["day"]
             (Exn AnalysisException "Column 'order_id' does not exist") blank).
    + reflexivity.
    + intros x [<- | []]. eexists. reflexivity.
    + reflexivity.
Defined.

(** ** The moving average of [lud_density] *)

(** X10.  The moving average looks at the seven greatest dates only: the
    groups after the seventh change neither the entry nor an exception. *)
Theorem moving_average_reads_seven_groups (ordered_counts : list (pyval * Z)) :
  moving_average ordered_counts = moving_average (firstn 7 ordered_counts).
Proof.
  destruct ordered_counts as [| a [| b [| c [| d [| e [| f [| g rest]]]]]]];
    try reflexivity.
  assert (H : (7 <=? Z.of_nat (List.length (a :: b :: c :: d :: e :: f :: g :: rest)))
              = true).
  { apply Z.leb_le. cbn [List.length]. lia. }
  unfold moving_average. rewrite H. reflexivity.
Qed.

Lemma float_lt_zero_not_zero y :
  float_lt (float_of_Z 0) y = true -> is_zero y = false.
Proof. destruct y; simpl; [discriminate | reflexivity ..]. Qed.

(** X11.  The two divisions of the moving average cannot divide by zero:
    the first divides by the length of [ordered_counts[1:7]], which is 6
    when there are seven groups, and the second is guarded by
    [last_luds_avg > 0].  What the computation can raise is an
    [OverflowError], for a count that no float holds. *)
Theorem moving_average_raises_overflow_only (ordered_counts : list (pyval * Z)) e :
  moving_average ordered_counts = inl e -> exn_cls e = OverflowError.
Proof.
  unfold moving_average.
  destruct (7 <=? Z.of_nat (List.length ordered_counts)) eqn:E; [| discriminate].
  apply Z.leb_le in E.
  assert (Hlen : List.length (map snd (slice_1_7 ordered_counts)) = 6%nat).
  { unfold slice_1_7. rewrite length_map, length_firstn, length_skipn. lia. }
  rewrite Hlen. change (Z.of_nat 6) with 6.
  destruct (int_truediv _ 6) as [e1 | avg] eqn:Ediv; cbn [res_bind].
  - intro H. injection H as <-. unfold int_truediv in Ediv.
    destruct (sum _); try discriminate;
      destruct (is_infinite _); try discriminate;
      injection Ediv as <-; reflexivity.
  - unfold ratio_to_average.
    destruct (float_lt (float_of_Z 0) avg) eqn:Epos; cbn [res_bind];
      [| discriminate].
    unfold int_to_float, float_truediv.
    rewrite (float_lt_zero_not_zero _ Epos).
    destruct (is_infinite _); cbn [res_bind raise]; [| discriminate].
    intro H. injection H as <-. reflexivity.
Qed.

Lemma moving_average_raises_overflow_only_witness :
  moving_average
    [(VStr "2024-01-07", 2 ^ 1030); (VStr "2024-01-06", 1); (VStr "2024-01-05", 1);
     (VStr "2024-01-04", 1); (VStr "2024-01-03", 1); (VStr "2024-01-02", 1);
     (VStr "2024-01-01", 1)]
  = inl (Exn OverflowError "int too large to convert to float")
  /\ exn_cls (Exn OverflowError "int too large to convert to float") = OverflowError.
Proof.
  split; [vm_compute; reflexivity |].
  apply (moving_average_raises_overflow_only
           [(VStr "2024-01-07", 2 ^ 1030); (VStr "2024-01-06", 1);
            (VStr "2024-01-05", 1); (VStr "2024-01-04", 1); (VStr "2024-01-03", 1);
            (VStr "2024-01-02", 1); (VStr "2024-01-01", 1)]).
  vm_compute. reflexivity.
Defined.

(** ** An empty list of key columns *)



